(** * ParagraphSkia: the txt adapter over SkParagraph

    A shallow embedding of [third_party/txt/src/skia/paragraph_skia.cc]:
    the font weight and slant converters, the painter that replays the
    layout library's draw calls on a display-list builder, and the
    [ParagraphSkia] wrapper with its line-metrics cache.

    Conventions.
    - C++ [int] is a [Z] with the 32-bit wrap-around written out;
      [size_t] is a [Z] reduced modulo 2^64.  Where a signed operation
      overflows, C++ defines no result; the statements about the source
      stay on the inputs where it does not.
    - [SkScalar] (binary32) and [double] (binary64) are [spec_float]s.
    - A member function is a computation [Exec St A] over the object's
      state, which can end in a [failure]: an exception of the standard
      library, a failed debug check, or an access outside a vector.
    - A pointer into [line_metrics_styles_] is the index of the element.
    - The objects of Skia that the file only forwards (text blobs, paths,
      paints, font metrics) are handles. *)

From Stdlib Require Import ZArith List Bool String Lia.
From Stdlib Require Import Floats.SpecFloat.
From Stdlib Require Import Sorting.Sorted.
Import ListNotations.

Set Implicit Arguments.
Local Open Scope Z_scope.

(* ================================================================== *)
(** ** Failures and the execution monad *)

Inductive failure : Type :=
| bad_variant_access    (* std::get on the alternative that is not held *)
| bad_optional_access   (* std::optional::value on an empty optional *)
| dcheck_failed         (* FML_DCHECK aborted the process *)
| out_of_range.         (* operator[] outside the vector: undefined;
                           what the program does from there on is not
                           described *)

Inductive outcome (A : Type) : Type :=
| Ok (a : A)
| Fail (e : failure).
Arguments Fail {A} e.

Definition Exec (St A : Type) : Type := St -> outcome A * St.

Definition ret {St A} (a : A) : Exec St A := fun s => (Ok a, s).

Definition bind {St A B} (m : Exec St A) (k : A -> Exec St B) : Exec St B :=
  fun s => match m s with
           | (Ok a, s') => k a s'
           | (Fail e, s') => (Fail e, s')
           end.

Definition raise {St A} (e : failure) : Exec St A := fun s => (Fail e, s).
Definition get {St} : Exec St St := fun s => (Ok s, s).
Definition gets {St A} (f : St -> A) : Exec St A := fun s => (Ok (f s), s).
Definition modify {St} (f : St -> St) : Exec St unit := fun s => (Ok tt, f s).
Definition lift {St A} (o : outcome A) : Exec St A := fun s => (o, s).

Declare Scope exec_scope.
Delimit Scope exec_scope with exec.
Notation "x <- m ;; k" := (bind m (fun x => k))
  (at level 61, m at next level, right associativity) : exec_scope.
Notation "m ;; k" := (bind m (fun _ => k))
  (at level 61, right associativity) : exec_scope.

(** A range-based [for] over a vector. *)
Fixpoint for_each {St A} (body : A -> Exec St unit) (l : list A)
  : Exec St unit :=
  match l with
  | [] => ret tt
  | x :: l' => bind (body x) (fun _ => for_each body l')
  end.

(* ================================================================== *)
(** ** Machine integers *)

Definition int_min : Z := - 2 ^ 31.
Definition int_max : Z := 2 ^ 31 - 1.

(** The value an [int] register holds after an operation whose
    mathematical result is [z]. *)
Definition int_wrap (z : Z) : Z := (z + 2 ^ 31) mod 2 ^ 32 - 2 ^ 31.

(** [-] on [int].  The result is the mathematical one when that is an
    [int]; otherwise the subtraction overflows, which C++ leaves
    undefined, and the two's-complement value stands in for it. *)
Definition int_sub (a b : Z) : Z := int_wrap (a - b).
(** [/] on [int] truncates towards zero. *)
Definition int_div (a b : Z) : Z := int_wrap (Z.quot a b).

Definition size_max : Z := 2 ^ 64.
(** Conversion of an [int] to [size_t]. *)
Definition to_size_t (z : Z) : Z := z mod size_max.

(** Conversion of a [size_t] to [unsigned], the type of the indices that
    the layout library's range queries take. *)
Definition to_unsigned (z : Z) : Z := z mod 2 ^ 32.

(** [std::clamp(v, lo, hi)]. *)
Definition std_clamp (v lo hi : Z) : Z :=
  if v <? lo then lo else if hi <? v then hi else v.

(** [v[i]] on a [std::vector]; the index is a [size_t].  An index
    outside the vector is undefined behaviour: the computation ends in
    [out_of_range], which says that the access left the vector and
    nothing about what a build without checks goes on to do. *)
Definition vec_at {A} (v : list A) (i : Z) : outcome A :=
  if i <? 0 then Fail out_of_range
  else match nth_error v (Z.to_nat i) with
       | Some a => Ok a
       | None => Fail out_of_range
       end.

Definition vec_size {A} (v : list A) : Z := Z.of_nat (List.length v).

(* ================================================================== *)
(** ** Scalars *)

Definition SkScalar : Type := spec_float.
Definition double : Type := spec_float.
Definition SkColor : Type := Z.

(** [SkScalarToDouble]: the conversion of a binary32 datum to binary64. *)
Definition SkScalarToDouble (x : SkScalar) : double :=
  match x with
  | S754_finite s m e => binary_normalize 53 1024 (cond_Zopp s (Zpos m)) e s
  | _ => x
  end.

(** The implicit narrowing of a [double] argument to an [SkScalar]
    parameter, rounding to nearest even. *)
Definition DoubleToSkScalar (x : double) : SkScalar :=
  match x with
  | S754_finite s m e => binary_normalize 24 128 (cond_Zopp s (Zpos m)) e s
  | _ => x
  end.

Definition double_zero : double := S754_zero false.

(** [a > b] on doubles; false when either side is a NaN. *)
Definition double_gt (a b : double) : bool := SFltb b a.

(* ================================================================== *)
(** ** Font weight and font style *)

(** [txt::FontWeight] is an [enum class] over [int]; [static_cast] keeps
    the integer. *)
Inductive FontWeight : Type := FontWeight_of_int (ordinal : Z).

Definition int_of_FontWeight (w : FontWeight) : Z :=
  match w with FontWeight_of_int z => z end.

Definition w100 := FontWeight_of_int 0.
Definition w200 := FontWeight_of_int 1.
Definition w300 := FontWeight_of_int 2.
Definition w400 := FontWeight_of_int 3.
Definition w500 := FontWeight_of_int 4.
Definition w600 := FontWeight_of_int 5.
Definition w700 := FontWeight_of_int 6.
Definition w800 := FontWeight_of_int 7.
Definition w900 := FontWeight_of_int 8.

Inductive FontStyle : Type := normal | italic.

Inductive Slant : Type := kUpright_Slant | kItalic_Slant | kOblique_Slant.

Definition Slant_eqb (a b : Slant) : bool :=
  match a, b with
  | kUpright_Slant, kUpright_Slant
  | kItalic_Slant, kItalic_Slant
  | kOblique_Slant, kOblique_Slant => true
  | _, _ => false
  end.

Definition GetTxtFontWeight (font_weight : Z) : FontWeight :=
  let txt_weight := int_div (int_sub font_weight 100) 100 in
  let txt_weight :=
    std_clamp txt_weight (int_of_FontWeight w100) (int_of_FontWeight w900) in
  FontWeight_of_int txt_weight.

Definition GetTxtFontStyle (font_slant : Slant) : FontStyle :=
  if Slant_eqb font_slant kUpright_Slant then normal else italic.

(* ================================================================== *)
(** ** Skia and display-list data the adapter forwards *)

(** Objects whose contents the adapter never inspects. *)
Inductive SkTextBlob : Type := SkTextBlob_handle (id : Z).
Inductive SkPath : Type := SkPath_handle (id : Z).
Inductive SkPaint : Type := SkPaint_handle (id : Z).
Inductive SkFontMetrics : Type := SkFontMetrics_handle (id : Z).

(** [sk_sp<SkTextBlob>]: a null or a live reference. *)
Definition sk_sp (A : Type) : Type := option A.

Record SkPoint : Type := { fX : SkScalar; fY : SkScalar }.
Definition SkPoint_Make (x y : SkScalar) : SkPoint := {| fX := x; fY := y |}.

Record SkRect : Type :=
  { fLeft : SkScalar; fTop : SkScalar; fRight : SkScalar; fBottom : SkScalar }.

Record SkFontStyle : Type := { weight : Z; width : Z; slant : Slant }.

Inductive SkClipOp : Type := kDifference | kIntersect.
Inductive SkBlurStyle : Type :=
| kNormal_SkBlurStyle | kSolid_SkBlurStyle
| kOuter_SkBlurStyle | kInner_SkBlurStyle.

Inductive DlDrawStyle : Type := kFill | kStroke | kStrokeAndFill.

Record DlDashPathEffect : Type :=
  { intervals : list SkScalar; phase : SkScalar }.

(** [DlDashPathEffect::Make(intervals, count, phase)] keeps the first
    [count] intervals. *)
Definition DlDashPathEffect_Make (data : list SkScalar) (count : Z)
    (ph : SkScalar) : DlDashPathEffect :=
  {| intervals := firstn (Z.to_nat count) data; phase := ph |}.

Record DlBlurMaskFilter : Type :=
  { blur_style : SkBlurStyle; sigma : SkScalar; respect_ctm : bool }.

Module DlPaint.
Record t : Type :=
    { getDrawStyle : DlDrawStyle;
      isAntiAlias : bool;
      getColor : SkColor;
      getStrokeWidth : SkScalar;
      getPathEffect : option DlDashPathEffect;
      getMaskFilter : option DlBlurMaskFilter }.

  (** Modelled from the spec: the [DlPaint] class is declared in the
      display-list library, outside this file.  A paint that was just
      constructed fills, is opaque black, has no stroke width, and has
      neither a path effect nor a mask filter attached; the adapter's
      "trivial paint-object construction" starts from it. *)
Definition new : t :=
    {| getDrawStyle := kFill;
       isAntiAlias := false;
       getColor := 4278190080;
       getStrokeWidth := S754_zero false;
       getPathEffect := None;
       getMaskFilter := None |}.

Definition setDrawStyle (v : DlDrawStyle) (p : t) : t :=
    {| getDrawStyle := v; isAntiAlias := isAntiAlias p;
       getColor := getColor p; getStrokeWidth := getStrokeWidth p;
       getPathEffect := getPathEffect p; getMaskFilter := getMaskFilter p |}.
Definition setAntiAlias (v : bool) (p : t) : t :=
    {| getDrawStyle := getDrawStyle p; isAntiAlias := v;
       getColor := getColor p; getStrokeWidth := getStrokeWidth p;
       getPathEffect := getPathEffect p; getMaskFilter := getMaskFilter p |}.
Definition setColor (v : SkColor) (p : t) : t :=
    {| getDrawStyle := getDrawStyle p; isAntiAlias := isAntiAlias p;
       getColor := v; getStrokeWidth := getStrokeWidth p;
       getPathEffect := getPathEffect p; getMaskFilter := getMaskFilter p |}.
Definition setStrokeWidth (v : SkScalar) (p : t) : t :=
    {| getDrawStyle := getDrawStyle p; isAntiAlias := isAntiAlias p;
       getColor := getColor p; getStrokeWidth := v;
       getPathEffect := getPathEffect p; getMaskFilter := getMaskFilter p |}.
Definition setPathEffect (v : DlDashPathEffect) (p : t) : t :=
    {| getDrawStyle := getDrawStyle p; isAntiAlias := isAntiAlias p;
       getColor := getColor p; getStrokeWidth := getStrokeWidth p;
       getPathEffect := Some v; getMaskFilter := getMaskFilter p |}.
Definition setMaskFilter (v : DlBlurMaskFilter) (p : t) : t :=
    {| getDrawStyle := getDrawStyle p; isAntiAlias := isAntiAlias p;
       getColor := getColor p; getStrokeWidth := getStrokeWidth p;
       getPathEffect := getPathEffect p; getMaskFilter := Some v |}.
End DlPaint.

(** The display-list builder, seen from the adapter: the commands it has
    been given, oldest first. *)
Module DisplayListBuilder.
Inductive op : Type :=
  | DrawTextBlob (blob : SkTextBlob) (x y : SkScalar) (paint : DlPaint.t)
  | DrawRect (rect : SkRect) (paint : DlPaint.t)
  | DrawPath (path : SkPath) (paint : DlPaint.t)
  | DrawLine (p0 p1 : SkPoint) (paint : DlPaint.t)
  | ClipRect (rect : SkRect) (clip_op : SkClipOp) (is_aa : bool)
  | Translate (dx dy : SkScalar)
  | Save
  | Restore.

Definition t : Type := list op.

Definition issue (o : op) : Exec t unit := modify (fun b => b ++ [o]).

Definition drawTextBlob blob x y paint := issue (DrawTextBlob blob x y paint).
Definition drawRect rect paint := issue (DrawRect rect paint).
Definition drawPath path paint := issue (DrawPath path paint).
Definition drawLine p0 p1 paint := issue (DrawLine p0 p1 paint).
Definition clipRect rect clip_op is_aa := issue (ClipRect rect clip_op is_aa).
Definition translate dx dy := issue (Translate dx dy).
Definition save := issue Save.
Definition restore := issue Restore.
End DisplayListBuilder.

(* ================================================================== *)
(** ** The layout library's side: [skia::textlayout] *)

Module skt.

  (** [ParagraphPainter::PaintID] is an [int]. *)
Definition PaintID : Type := Z.

  (** [SkPaintOrID = std::variant<SkPaint, PaintID>]. *)
Inductive SkPaintOrID : Type :=
  | ofSkPaint (p : SkPaint)
  | ofPaintID (id : PaintID).

Definition holds_SkPaint (v : SkPaintOrID) : bool :=
    match v with ofSkPaint _ => true | ofPaintID _ => false end.
Definition holds_PaintID (v : SkPaintOrID) : bool :=
    match v with ofSkPaint _ => false | ofPaintID _ => true end.

  (** [std::get<T>(v)] throws when [v] holds the other alternative. *)
Definition get_SkPaint (v : SkPaintOrID) : outcome SkPaint :=
    match v with ofSkPaint p => Ok p | ofPaintID _ => Fail bad_variant_access end.
Definition get_PaintID (v : SkPaintOrID) : outcome PaintID :=
    match v with ofPaintID i => Ok i | ofSkPaint _ => Fail bad_variant_access end.

Record DashPathEffect : Type :=
    { fOnLength : SkScalar; fOffLength : SkScalar }.

Record DecorationStyle : Type :=
    { getColor : SkColor;
      getStrokeWidth : SkScalar;
      getDashPathEffect : option DashPathEffect }.

Record TextShadow : Type :=
    { fColor : SkColor; fOffset : SkPoint; fBlurSigma : double }.

Module TextStyle.
    (** The enumerations that the adapter converts with [static_cast]
        are kept as their integers. *)
Record t : Type :=
      { getColor : SkColor;
        getDecorationType : Z;
        getDecorationColor : SkColor;
        getDecorationStyle : Z;
        getDecorationThicknessMultiplier : SkScalar;
        getFontStyle : SkFontStyle;
        getTextBaseline : Z;
        getFontFamilies : list string;
        getFontSize : SkScalar;
        getLetterSpacing : SkScalar;
        getWordSpacing : SkScalar;
        getHeight : SkScalar;
        getLocale : string;
        hasBackground : bool;
        getBackgroundPaintOrID : SkPaintOrID;
        hasForeground : bool;
        getForegroundPaintOrID : SkPaintOrID;
        getShadows : list TextShadow }.
End TextStyle.

Record StyleMetrics : Type :=
    { text_style : TextStyle.t;       (* the pointee of [text_style] *)
      font_metrics : SkFontMetrics }.

  (** [fLineMetrics] is a [std::map<size_t, StyleMetrics>]: its entries in
      the order of iteration. *)
Record LineMetrics : Type :=
    { fStartIndex : Z;
      fEndIndex : Z;
      fEndExcludingWhitespaces : Z;
      fEndIncludingNewline : Z;
      fHardBreak : bool;
      fAscent : double;
      fDescent : double;
      fUnscaledAscent : double;
      fHeight : double;
      fWidth : double;
      fLeft : double;
      fBaseline : double;
      fLineNumber : Z;
      fLineMetrics : list (Z * StyleMetrics) }.

Record TextBox : Type := { rect : SkRect; direction : Z }.
Record PositionWithAffinity : Type := { position : Z; affinity : Z }.
Record SkRange : Type := { start : Z; end_ : Z }.

  (** A callback of [ParagraphPainter], as the paragraph makes it while it
      paints. *)
Inductive PainterCall : Type :=
  | drawTextBlob (blob : sk_sp SkTextBlob) (x y : SkScalar) (paint : SkPaintOrID)
  | drawTextShadow (blob : sk_sp SkTextBlob) (x y : SkScalar)
                   (color : SkColor) (blur_sigma : SkScalar)
  | drawRect (rect : SkRect) (paint : SkPaintOrID)
  | drawFilledRect (rect : SkRect) (decor_style : DecorationStyle)
  | drawPath (path : SkPath) (decor_style : DecorationStyle)
  | drawLine (x0 y0 x1 y1 : SkScalar) (decor_style : DecorationStyle)
  | clipRect (rect : SkRect)
  | translate (dx dy : SkScalar)
  | save
  | restore.

  (** The abstract class [skt::Paragraph]: what the wrapper asks of the
      paragraph it owns.  The accessors read a field; [getLineMetrics],
      [layout] and [paint] may change the paragraph. *)
Class Paragraph (P : Type) : Type :=
    { getMaxWidth : P -> SkScalar;
      getHeight : P -> SkScalar;
      getLongestLine : P -> SkScalar;
      getMinIntrinsicWidth : P -> SkScalar;
      getMaxIntrinsicWidth : P -> SkScalar;
      getAlphabeticBaseline : P -> SkScalar;
      getIdeographicBaseline : P -> SkScalar;
      didExceedMaxLines : P -> bool;
      getLineMetrics : P -> list LineMetrics * P;
      layout : SkScalar -> P -> P;
      paint : SkScalar -> SkScalar -> P -> list PainterCall * P;
      getRectsForRange : Z -> Z -> Z -> Z -> P -> list TextBox * P;
      getRectsForPlaceholders : P -> list TextBox * P;
      getGlyphPositionAtCoordinate : SkScalar -> SkScalar -> P
                                     -> PositionWithAffinity * P;
      getWordBoundary : Z -> P -> SkRange * P }.

End skt.


(* ================================================================== *)
(** ** Debug checks *)

(** Whether the translation unit is compiled with debug checks. *)
Class BuildMode : Type := { debug_build : bool }.

(** Modelled from the spec: the [FML_DCHECK] macro is defined in the
    engine's logging header, outside this file.  It is a "debug-only
    assertion": in a debug build a false condition aborts, in any other
    build the check is compiled out. *)
Definition FML_DCHECK `{BuildMode} {St} (cond : bool) : Exec St unit :=
  if debug_build && negb cond then raise dcheck_failed else ret tt.

(* ================================================================== *)
(** ** The painter: [DisplayListParagraphPainter] *)

Module DisplayListParagraphPainter.

Record t : Type :=
  { builder_ : DisplayListBuilder.t;     (* the pointee of [builder_] *)
    dl_paints_ : list DlPaint.t }.

(** A call through the [builder_] pointer. *)
Definition on_builder {A} (m : Exec DisplayListBuilder.t A) : Exec t A :=
  fun s => let (r, b) := m (builder_ s) in
           (r, {| builder_ := b; dl_paints_ := dl_paints_ s |}).

Definition toDlPaint (decor_style : skt.DecorationStyle)
    (draw_style : DlDrawStyle) : DlPaint.t :=
  let paint := DlPaint.new in
  let paint := DlPaint.setDrawStyle draw_style paint in
  let paint := DlPaint.setAntiAlias true paint in
  let paint := DlPaint.setColor (skt.getColor decor_style) paint in
  let paint := DlPaint.setStrokeWidth (skt.getStrokeWidth decor_style) paint in
  let dash_path_effect := skt.getDashPathEffect decor_style in
  match dash_path_effect with
  | Some effect =>
      let intervals := [skt.fOnLength effect; skt.fOffLength effect] in
      DlPaint.setPathEffect
        (DlDashPathEffect_Make intervals (vec_size intervals) (S754_zero false))
        paint
  | None => paint
  end.

Section Methods.
Context `{BuildMode}.
Local Open Scope exec_scope.

Definition drawTextBlob (blob : sk_sp SkTextBlob) (x y : SkScalar)
    (paint : skt.SkPaintOrID) : Exec t unit :=
  match blob with
  | None => ret tt
  | Some b =>
      id <- lift (skt.get_PaintID paint) ;;
      let paint_id := to_size_t id in
      paints <- gets dl_paints_ ;;
      FML_DCHECK (paint_id <? vec_size paints) ;;
      dl_paint <- lift (vec_at paints paint_id) ;;
      on_builder (DisplayListBuilder.drawTextBlob b x y dl_paint)
  end.

Definition drawTextShadow (blob : sk_sp SkTextBlob) (x y : SkScalar)
    (color : SkColor) (blur_sigma : SkScalar) : Exec t unit :=
  match blob with
  | None => ret tt
  | Some b =>
      let paint := DlPaint.new in
      let paint := DlPaint.setColor color paint in
      let paint :=
        if double_gt (SkScalarToDouble blur_sigma) double_zero then
          let filter :=
            {| blur_style := kNormal_SkBlurStyle;
               sigma := blur_sigma;
               respect_ctm := false |} in
          DlPaint.setMaskFilter filter paint
        else paint in
      on_builder (DisplayListBuilder.drawTextBlob b x y paint)
  end.

Definition drawRect (rect : SkRect) (paint : skt.SkPaintOrID) : Exec t unit :=
  id <- lift (skt.get_PaintID paint) ;;
  let paint_id := to_size_t id in
  paints <- gets dl_paints_ ;;
  FML_DCHECK (paint_id <? vec_size paints) ;;
  dl_paint <- lift (vec_at paints paint_id) ;;
  on_builder (DisplayListBuilder.drawRect rect dl_paint).

Definition drawFilledRect (rect : SkRect)
    (decor_style : skt.DecorationStyle) : Exec t unit :=
  let paint := toDlPaint decor_style kFill in
  on_builder (DisplayListBuilder.drawRect rect paint).

Definition drawPath (path : SkPath)
    (decor_style : skt.DecorationStyle) : Exec t unit :=
  on_builder (DisplayListBuilder.drawPath path (toDlPaint decor_style kStroke)).

Definition drawLine (x0 y0 x1 y1 : SkScalar)
    (decor_style : skt.DecorationStyle) : Exec t unit :=
  on_builder (DisplayListBuilder.drawLine (SkPoint_Make x0 y0)
                (SkPoint_Make x1 y1) (toDlPaint decor_style kStroke)).

Definition clipRect (rect : SkRect) : Exec t unit :=
  on_builder (DisplayListBuilder.clipRect rect kIntersect false).

Definition translate (dx dy : SkScalar) : Exec t unit :=
  on_builder (DisplayListBuilder.translate dx dy).

Definition save : Exec t unit := on_builder DisplayListBuilder.save.

Definition restore : Exec t unit := on_builder DisplayListBuilder.restore.

(** The virtual dispatch of a callback to its override. *)
Definition dispatch (c : skt.PainterCall) : Exec t unit :=
  match c with
  | skt.drawTextBlob blob x y paint => drawTextBlob blob x y paint
  | skt.drawTextShadow blob x y color blur => drawTextShadow blob x y color blur
  | skt.drawRect rect paint => drawRect rect paint
  | skt.drawFilledRect rect d => drawFilledRect rect d
  | skt.drawPath path d => drawPath path d
  | skt.drawLine x0 y0 x1 y1 d => drawLine x0 y0 x1 y1 d
  | skt.clipRect rect => clipRect rect
  | skt.translate dx dy => translate dx dy
  | skt.save => save
  | skt.restore => restore
  end.

End Methods.
End DisplayListParagraphPainter.

(* ================================================================== *)
(** ** The host's side: [txt] data *)

(** A [std::string] made from a C string: the characters before the first NUL. *)
Fixpoint c_str (s : string) : string :=
  match s with
  | EmptyString => EmptyString
  | String c rest =>
      if Ascii.eqb c Ascii.zero then EmptyString else String c (c_str rest)
  end.

Module TextShadow.
Record t : Type :=
  { color : SkColor; offset : SkPoint; blur_sigma : double }.
End TextShadow.

Module TextStyle.
(** The members of [txt::TextStyle] that the conversion names. *)
Record t : Type :=
  { color : SkColor;
    decoration : Z;
    decoration_color : SkColor;
    decoration_style : Z;
    decoration_thickness_multiplier : double;
    font_weight : FontWeight;
    font_style : FontStyle;
    text_baseline : Z;
    font_families : list string;
    font_size : double;
    letter_spacing : double;
    word_spacing : double;
    height : double;
    locale : string;
    background : option SkPaint;
    background_dl : option DlPaint.t;
    foreground : option SkPaint;
    foreground_dl : option DlPaint.t;
    text_shadows : list TextShadow.t }.
End TextStyle.

Module RunMetrics.
(** [text_style] points into [ParagraphSkia::line_metrics_styles_]. *)
Record t : Type :=
  { text_style : nat; font_metrics : SkFontMetrics }.
End RunMetrics.

(** [std::map<size_t, V>::emplace]: entries stay sorted by key, and a key
    that is already present keeps its entry. *)
Fixpoint map_emplace {V} (k : Z) (v : V) (m : list (Z * V)) : list (Z * V) :=
  match m with
  | [] => [(k, v)]
  | (k', v') :: m' =>
      if k <? k' then (k, v) :: m
      else if k =? k' then m
      else (k', v') :: map_emplace k v m'
  end.

Module LineMetrics.
Record t : Type :=
  { start_index : Z;
    end_index : Z;
    end_excluding_whitespace : Z;
    end_including_newline : Z;
    hard_break : bool;
    ascent : double;
    descent : double;
    unscaled_ascent : double;
    height : double;
    width : double;
    left : double;
    baseline : double;
    line_number : Z;
    run_metrics : list (Z * RunMetrics.t) }.

Definition emplace_run (k : Z) (r : RunMetrics.t) (m : t) : t :=
  {| start_index := start_index m;
     end_index := end_index m;
     end_excluding_whitespace := end_excluding_whitespace m;
     end_including_newline := end_including_newline m;
     hard_break := hard_break m;
     ascent := ascent m;
     descent := descent m;
     unscaled_ascent := unscaled_ascent m;
     height := height m;
     width := width m;
     left := left m;
     baseline := baseline m;
     line_number := line_number m;
     run_metrics := map_emplace k r (run_metrics m) |}.
End LineMetrics.

Record TextBox : Type := { rect : SkRect; direction : Z }.
Record PositionWithAffinity : Type := { position : Z; affinity : Z }.
Record Range : Type := { start : Z; end_ : Z }.

(* ================================================================== *)
(** ** The wrapper: [ParagraphSkia] *)

Module ParagraphSkia.

Record t (P : Type) : Type :=
  { paragraph_ : P;                      (* the pointee of [paragraph_] *)
    dl_paints_ : list DlPaint.t;
    line_metrics_ : option (list LineMetrics.t);
    line_metrics_styles_ : list TextStyle.t }.

(** The constructor; the cache and its store start empty. *)
Definition new {P} (paragraph : P) (dl_paints : list DlPaint.t) : t P :=
  {| paragraph_ := paragraph;
     dl_paints_ := dl_paints;
     line_metrics_ := None;
     line_metrics_styles_ := [] |}.

Definition set_paragraph_ {P} (p : P) (s : t P) : t P :=
  {| paragraph_ := p;
     dl_paints_ := dl_paints_ s;
     line_metrics_ := line_metrics_ s;
     line_metrics_styles_ := line_metrics_styles_ s |}.

Definition set_line_metrics_ {P} (v : option (list LineMetrics.t))
    (s : t P) : t P :=
  {| paragraph_ := paragraph_ s;
     dl_paints_ := dl_paints_ s;
     line_metrics_ := v;
     line_metrics_styles_ := line_metrics_styles_ s |}.

Definition set_line_metrics_styles_ {P} (v : list TextStyle.t)
    (s : t P) : t P :=
  {| paragraph_ := paragraph_ s;
     dl_paints_ := dl_paints_ s;
     line_metrics_ := line_metrics_ s;
     line_metrics_styles_ := v |}.

Section Methods.
Context `{BuildMode} {P : Type} `{skt.Paragraph P}.

(** The value of a default-constructed [txt::TextStyle]; its constructor
    is defined outside this file. *)
Variable TextStyle_new : TextStyle.t.

Local Open Scope exec_scope.

(** A call of a method of [*paragraph_] that returns a value. *)
Definition on_paragraph {A} (m : P -> A * P) : Exec (t P) A :=
  fun s => let (a, p) := m (paragraph_ s) in (Ok a, set_paragraph_ p s).

Definition GetMaxWidth : Exec (t P) double :=
  p <- gets (@paragraph_ P) ;; ret (SkScalarToDouble (skt.getMaxWidth p)).

Definition GetHeight : Exec (t P) double :=
  p <- gets (@paragraph_ P) ;; ret (SkScalarToDouble (skt.getHeight p)).

Definition GetLongestLine : Exec (t P) double :=
  p <- gets (@paragraph_ P) ;; ret (SkScalarToDouble (skt.getLongestLine p)).

Definition GetMinIntrinsicWidth : Exec (t P) double :=
  p <- gets (@paragraph_ P) ;;
  ret (SkScalarToDouble (skt.getMinIntrinsicWidth p)).

Definition GetMaxIntrinsicWidth : Exec (t P) double :=
  p <- gets (@paragraph_ P) ;;
  ret (SkScalarToDouble (skt.getMaxIntrinsicWidth p)).

Definition GetAlphabeticBaseline : Exec (t P) double :=
  p <- gets (@paragraph_ P) ;;
  ret (SkScalarToDouble (skt.getAlphabeticBaseline p)).

Definition GetIdeographicBaseline : Exec (t P) double :=
  p <- gets (@paragraph_ P) ;;
  ret (SkScalarToDouble (skt.getIdeographicBaseline p)).

Definition DidExceedMaxLines : Exec (t P) bool :=
  p <- gets (@paragraph_ P) ;; ret (skt.didExceedMaxLines p).

(** The background or foreground of a style: the immediate paint goes to
    the first member, the palette entry to the second. *)
Definition paint_members (has : bool) (v : skt.SkPaintOrID)
    (sk0 : option SkPaint) (dl0 : option DlPaint.t)
  : Exec (t P) (option SkPaint * option DlPaint.t) :=
  if has then
    if skt.holds_SkPaint v then
      p <- lift (skt.get_SkPaint v) ;; ret (Some p, dl0)
    else if skt.holds_PaintID v then
      id <- lift (skt.get_PaintID v) ;;
      paints <- gets (@dl_paints_ P) ;;
      dl <- lift (vec_at paints (to_size_t id)) ;;
      ret (sk0, Some dl)
    else ret (sk0, dl0)
  else ret (sk0, dl0).

Definition convert_shadow (skia_shadow : skt.TextShadow) : TextShadow.t :=
  {| TextShadow.offset := skt.fOffset skia_shadow;
     TextShadow.blur_sigma := skt.fBlurSigma skia_shadow;
     TextShadow.color := skt.fColor skia_shadow |}.

Definition SkiaToTxt (skia : skt.TextStyle.t) : Exec (t P) TextStyle.t :=
  let txt := TextStyle_new in
  bg <- paint_members (skt.TextStyle.hasBackground skia)
          (skt.TextStyle.getBackgroundPaintOrID skia)
          (TextStyle.background txt) (TextStyle.background_dl txt) ;;
  fg <- paint_members (skt.TextStyle.hasForeground skia)
          (skt.TextStyle.getForegroundPaintOrID skia)
          (TextStyle.foreground txt) (TextStyle.foreground_dl txt) ;;
  ret {| TextStyle.color := skt.TextStyle.getColor skia;
         TextStyle.decoration := skt.TextStyle.getDecorationType skia;
         TextStyle.decoration_color := skt.TextStyle.getDecorationColor skia;
         TextStyle.decoration_style := skt.TextStyle.getDecorationStyle skia;
         TextStyle.decoration_thickness_multiplier :=
           SkScalarToDouble
             (skt.TextStyle.getDecorationThicknessMultiplier skia);
         TextStyle.font_weight :=
           GetTxtFontWeight (weight (skt.TextStyle.getFontStyle skia));
         TextStyle.font_style :=
           GetTxtFontStyle (slant (skt.TextStyle.getFontStyle skia));
         TextStyle.text_baseline := skt.TextStyle.getTextBaseline skia;
         TextStyle.font_families :=
           TextStyle.font_families txt
           ++ map c_str (skt.TextStyle.getFontFamilies skia);
         TextStyle.font_size :=
           SkScalarToDouble (skt.TextStyle.getFontSize skia);
         TextStyle.letter_spacing :=
           SkScalarToDouble (skt.TextStyle.getLetterSpacing skia);
         TextStyle.word_spacing :=
           SkScalarToDouble (skt.TextStyle.getWordSpacing skia);
         TextStyle.height := SkScalarToDouble (skt.TextStyle.getHeight skia);
         TextStyle.locale := c_str (skt.TextStyle.getLocale skia);
         TextStyle.background := fst bg;
         TextStyle.background_dl := snd bg;
         TextStyle.foreground := fst fg;
         TextStyle.foreground_dl := snd fg;
         TextStyle.text_shadows :=
           map convert_shadow (skt.TextStyle.getShadows skia) |}.

(** The element that [line_metrics_->emplace_back(...)] constructs, after
    the assignments to its members; it has no run yet. *)
Definition new_line (skm : skt.LineMetrics) : LineMetrics.t :=
  {| LineMetrics.start_index := skt.fStartIndex skm;
     LineMetrics.end_index := skt.fEndIndex skm;
     LineMetrics.end_excluding_whitespace := skt.fEndExcludingWhitespaces skm;
     LineMetrics.end_including_newline := skt.fEndIncludingNewline skm;
     LineMetrics.hard_break := skt.fHardBreak skm;
     LineMetrics.ascent := skt.fAscent skm;
     LineMetrics.descent := skt.fDescent skm;
     LineMetrics.unscaled_ascent := skt.fUnscaledAscent skm;
     LineMetrics.height := skt.fHeight skm;
     LineMetrics.width := skt.fWidth skm;
     LineMetrics.left := skt.fLeft skm;
     LineMetrics.baseline := skt.fBaseline skm;
     LineMetrics.line_number := skt.fLineNumber skm;
     LineMetrics.run_metrics := [] |}.

Definition emplace_back_line (skm : skt.LineMetrics) : Exec (t P) unit :=
  lm <- gets (@line_metrics_ P) ;;
  match lm with
  | None => raise bad_optional_access
  | Some lines => modify (set_line_metrics_ (Some (lines ++ [new_line skm])))
  end.

(** [line_metrics_styles_.push_back(style)]; the result is the address of
    [line_metrics_styles_.back()]. *)
Definition push_back_style (style : TextStyle.t) : Exec (t P) nat :=
  fun s =>
    (Ok (List.length (line_metrics_styles_ s)),
     set_line_metrics_styles_ (line_metrics_styles_ s ++ [style]) s).

(** [txtm.run_metrics.emplace(key, RunMetrics(style, font_metrics))] on
    the element that [txtm] refers to, the last of [line_metrics_]. *)
Definition emplace_run_metrics (key : Z) (r : RunMetrics.t)
  : Exec (t P) unit :=
  lm <- gets (@line_metrics_ P) ;;
  match lm with
  | None => raise bad_optional_access
  | Some lines =>
      match rev lines with
      | [] => raise out_of_range
      | txtm :: before =>
          modify (set_line_metrics_
                    (Some (rev before ++ [LineMetrics.emplace_run key r txtm])))
      end
  end.

Definition convert_run (sk_iter : Z * skt.StyleMetrics) : Exec (t P) unit :=
  let sk_style_metrics := snd sk_iter in
  style <- SkiaToTxt (skt.text_style sk_style_metrics) ;;
  back <- push_back_style style ;;
  emplace_run_metrics (fst sk_iter)
    {| RunMetrics.text_style := back;
       RunMetrics.font_metrics := skt.font_metrics sk_style_metrics |}.

Definition convert_line (skm : skt.LineMetrics) : Exec (t P) unit :=
  emplace_back_line skm ;;
  for_each convert_run (skt.fLineMetrics skm).

(** The argument of [reserve]: the [std::accumulate] over the lines, with
    an [int] accumulator. *)
Definition reserve_count (metrics : list skt.LineMetrics) : Z :=
  fold_left
    (fun a b => int_wrap (to_size_t a + vec_size (skt.fLineMetrics b)))
    metrics 0.

(** [line_metrics_styles_.reserve(n)] changes the capacity, which keeps
    the addresses taken by [push_back_style] valid, and no element. *)
Definition reserve_styles (n : Z) : Exec (t P) unit := ret tt.

Definition GetLineMetrics : Exec (t P) (list LineMetrics.t) :=
  cached <- gets (@line_metrics_ P) ;;
  (match cached with
   | Some _ => ret tt
   | None =>
       metrics <- on_paragraph skt.getLineMetrics ;;
       modify (set_line_metrics_ (Some [])) ;;
       reserve_styles (to_size_t (reserve_count metrics)) ;;
       for_each convert_line metrics
   end) ;;
  now_cached <- gets (@line_metrics_ P) ;;
  match now_cached with
  | Some lines => ret lines
  | None => raise bad_optional_access
  end.

Definition Layout (width : double) : Exec (t P) unit :=
  modify (set_line_metrics_ None) ;;
  modify (set_line_metrics_styles_ []) ;;
  modify (fun s =>
            set_paragraph_
              (skt.layout (DoubleToSkScalar width) (paragraph_ s)) s).

(** [Paint] runs over the wrapper and the builder the caller passes. *)
Definition Paint (x y : double)
  : Exec (t P * DisplayListBuilder.t) bool :=
  fun st =>
    let (s, builder) := st in
    let painter :=
      {| DisplayListParagraphPainter.builder_ := builder;
         DisplayListParagraphPainter.dl_paints_ := dl_paints_ s |} in
    let (calls, p) :=
      skt.paint (DoubleToSkScalar x) (DoubleToSkScalar y) (paragraph_ s) in
    let (r, painter') :=
      for_each DisplayListParagraphPainter.dispatch calls painter in
    let st' :=
      (set_paragraph_ p s, DisplayListParagraphPainter.builder_ painter') in
    match r with
    | Ok _ => (Ok true, st')
    | Fail e => (Fail e, st')
    end.

Definition convert_box (skia_box : skt.TextBox) : TextBox :=
  {| rect := skt.rect skia_box; direction := skt.direction skia_box |}.

Definition GetRectsForRange (start_ end_ rect_height_style
    rect_width_style : Z) : Exec (t P) (list TextBox) :=
  skia_boxes <- on_paragraph
    (skt.getRectsForRange (to_unsigned start_) (to_unsigned end_)
       rect_height_style rect_width_style) ;;
  ret (map convert_box skia_boxes).

Definition GetRectsForPlaceholders : Exec (t P) (list TextBox) :=
  skia_boxes <- on_paragraph skt.getRectsForPlaceholders ;;
  ret (map convert_box skia_boxes).

Definition GetGlyphPositionAtCoordinate (dx dy : double)
  : Exec (t P) PositionWithAffinity :=
  skia_pos <- on_paragraph
    (skt.getGlyphPositionAtCoordinate (DoubleToSkScalar dx)
       (DoubleToSkScalar dy)) ;;
  ret {| position := skt.position skia_pos;
         affinity := skt.affinity skia_pos |}.

Definition GetWordBoundary (offset : Z) : Exec (t P) Range :=
  range <- on_paragraph (skt.getWordBoundary (to_unsigned offset)) ;;
  ret {| start := skt.start range; end_ := skt.end_ range |}.

(** The public member functions, as a caller invokes them.  [Paint] takes
    the builder it draws on and gives it back. *)
Inductive method : Type :=
| mGetMaxWidth
| mGetHeight
| mGetLongestLine
| mGetLineMetrics
| mGetMinIntrinsicWidth
| mGetMaxIntrinsicWidth
| mGetAlphabeticBaseline
| mGetIdeographicBaseline
| mDidExceedMaxLines
| mLayout (width : double)
| mPaint (builder : DisplayListBuilder.t) (x y : double)
| mGetRectsForRange (start_ end_ rect_height_style rect_width_style : Z)
| mGetRectsForPlaceholders
| mGetGlyphPositionAtCoordinate (dx dy : double)
| mGetWordBoundary (offset : Z).

Inductive result : Type :=
| rDouble (d : double)
| rBool (b : bool)
| rVoid
| rLineMetrics (lines : list LineMetrics.t)
| rPainted (ok : bool) (builder : DisplayListBuilder.t)
| rBoxes (boxes : list TextBox)
| rPosition (pos : PositionWithAffinity)
| rRange (range : Range).

Definition call (m : method) : Exec (t P) result :=
  match m with
  | mGetMaxWidth => d <- GetMaxWidth ;; ret (rDouble d)
  | mGetHeight => d <- GetHeight ;; ret (rDouble d)
  | mGetLongestLine => d <- GetLongestLine ;; ret (rDouble d)
  | mGetLineMetrics => l <- GetLineMetrics ;; ret (rLineMetrics l)
  | mGetMinIntrinsicWidth => d <- GetMinIntrinsicWidth ;; ret (rDouble d)
  | mGetMaxIntrinsicWidth => d <- GetMaxIntrinsicWidth ;; ret (rDouble d)
  | mGetAlphabeticBaseline => d <- GetAlphabeticBaseline ;; ret (rDouble d)
  | mGetIdeographicBaseline => d <- GetIdeographicBaseline ;; ret (rDouble d)
  | mDidExceedMaxLines => b <- DidExceedMaxLines ;; ret (rBool b)
  | mLayout width => Layout width ;; ret rVoid
  | mPaint builder x y =>
      fun s =>
        match Paint x y (s, builder) with
        | (Ok ok, (s', builder')) => (Ok (rPainted ok builder'), s')
        | (Fail e, (s', _)) => (Fail e, s')
        end
  | mGetRectsForRange a b h w =>
      l <- GetRectsForRange a b h w ;; ret (rBoxes l)
  | mGetRectsForPlaceholders => l <- GetRectsForPlaceholders ;; ret (rBoxes l)
  | mGetGlyphPositionAtCoordinate dx dy =>
      p <- GetGlyphPositionAtCoordinate dx dy ;; ret (rPosition p)
  | mGetWordBoundary offset => r <- GetWordBoundary offset ;; ret (rRange r)
  end.

End Methods.
End ParagraphSkia.

(* ================================================================== *)
(** ** A paragraph to run the wrapper on *)

(** A stand-in for the layout library: it holds the answers it gives and
    counts the calls of [getLineMetrics] it receives. *)
Module CountingParagraph.

Record t : Type :=
  { width : SkScalar;
    lines : list skt.LineMetrics;
    calls : list skt.PainterCall;
    queries : nat }.

Definition relayout (w : SkScalar) (p : t) : t :=
  {| width := w; lines := lines p; calls := calls p; queries := queries p |}.

Definition query (p : t) : list skt.LineMetrics * t :=
  (lines p,
   {| width := width p; lines := lines p; calls := calls p;
      queries := S (queries p) |}).

#[global] Instance paragraph : skt.Paragraph t :=
  {| skt.getMaxWidth := width;
     skt.getHeight := width;
     skt.getLongestLine := width;
     skt.getMinIntrinsicWidth := width;
     skt.getMaxIntrinsicWidth := width;
     skt.getAlphabeticBaseline := width;
     skt.getIdeographicBaseline := width;
     skt.didExceedMaxLines := fun _ => false;
     skt.getLineMetrics := query;
     skt.layout := relayout;
     skt.paint := fun _ _ p => (calls p, p);
     skt.getRectsForRange := fun _ _ _ _ p => ([], p);
     skt.getRectsForPlaceholders := fun p => ([], p);
     skt.getGlyphPositionAtCoordinate :=
       fun _ _ p => ({| skt.position := 0; skt.affinity := 0 |}, p);
     skt.getWordBoundary :=
       fun o p => ({| skt.start := o; skt.end_ := o |}, p) |}.

End CountingParagraph.

Module Sample.

Definition debug : BuildMode := {| debug_build := true |}.
Definition release : BuildMode := {| debug_build := false |}.

Definition one : SkScalar := S754_finite false 8388608 (-23).

Definition red : DlPaint.t := DlPaint.setColor 4294901760 DlPaint.new.
Definition palette : list DlPaint.t := [DlPaint.new; red].

Definition blob : SkTextBlob := SkTextBlob_handle 1.
Definition unit_rect : SkRect :=
  {| fLeft := S754_zero false; fTop := S754_zero false;
     fRight := one; fBottom := one |}.

Definition painter : DisplayListParagraphPainter.t :=
  {| DisplayListParagraphPainter.builder_ := [DisplayListBuilder.Save];
     DisplayListParagraphPainter.dl_paints_ := palette |}.

Definition dashed : skt.DecorationStyle :=
  {| skt.getColor := 4278190335;
     skt.getStrokeWidth := one;
     skt.getDashPathEffect :=
       Some {| skt.fOnLength := one; skt.fOffLength := one |} |}.

(** An upright style of weight 400 whose background is palette entry
    [bg] and whose foreground is an immediate paint. *)
Definition style (bg : skt.PaintID) : skt.TextStyle.t :=
  {| skt.TextStyle.getColor := 4278190080;
     skt.TextStyle.getDecorationType := 1;
     skt.TextStyle.getDecorationColor := 4278190080;
     skt.TextStyle.getDecorationStyle := 0;
     skt.TextStyle.getDecorationThicknessMultiplier := one;
     skt.TextStyle.getFontStyle :=
       {| weight := 400; width := 5; slant := kUpright_Slant |};
     skt.TextStyle.getTextBaseline := 0;
     skt.TextStyle.getFontFamilies := ["Roboto"%string];
     skt.TextStyle.getFontSize := one;
     skt.TextStyle.getLetterSpacing := S754_zero false;
     skt.TextStyle.getWordSpacing := S754_zero false;
     skt.TextStyle.getHeight := one;
     skt.TextStyle.getLocale := "en"%string;
     skt.TextStyle.hasBackground := true;
     skt.TextStyle.getBackgroundPaintOrID := skt.ofPaintID bg;
     skt.TextStyle.hasForeground := true;
     skt.TextStyle.getForegroundPaintOrID := skt.ofSkPaint (SkPaint_handle 7);
     skt.TextStyle.getShadows := [] |}.

Definition text_style_new : TextStyle.t :=
  {| TextStyle.color := 4294967295;
     TextStyle.decoration := 0;
     TextStyle.decoration_color := 0;
     TextStyle.decoration_style := 0;
     TextStyle.decoration_thickness_multiplier := one;
     TextStyle.font_weight := w400;
     TextStyle.font_style := normal;
     TextStyle.text_baseline := 0;
     TextStyle.font_families := ["sans-serif"%string];
     TextStyle.font_size := one;
     TextStyle.letter_spacing := S754_zero false;
     TextStyle.word_spacing := S754_zero false;
     TextStyle.height := one;
     TextStyle.locale := ""%string;
     TextStyle.background := None;
     TextStyle.background_dl := None;
     TextStyle.foreground := None;
     TextStyle.foreground_dl := None;
     TextStyle.text_shadows := [] |}.

Definition run (bg : skt.PaintID) : skt.StyleMetrics :=
  {| skt.text_style := style bg;
     skt.font_metrics := SkFontMetrics_handle 0 |}.

Definition line (n : Z) (runs : list (Z * skt.StyleMetrics))
  : skt.LineMetrics :=
  {| skt.fStartIndex := 10 * n;
     skt.fEndIndex := 10 * n + 9;
     skt.fEndExcludingWhitespaces := 10 * n + 8;
     skt.fEndIncludingNewline := 10 * n + 10;
     skt.fHardBreak := true;
     skt.fAscent := one;
     skt.fDescent := one;
     skt.fUnscaledAscent := one;
     skt.fHeight := one;
     skt.fWidth := one;
     skt.fLeft := S754_zero false;
     skt.fBaseline := one;
     skt.fLineNumber := n;
     skt.fLineMetrics := runs |}.

(** Two lines: the first with two runs, the second with one. *)
Definition paragraph : CountingParagraph.t :=
  {| CountingParagraph.width := one;
     CountingParagraph.lines :=
       [line 0 [(0, run 0); (4, run 1)]; line 1 [(10, run 1)]];
     CountingParagraph.calls := [];
     CountingParagraph.queries := 0 |}.

Definition wrapper : ParagraphSkia.t CountingParagraph.t :=
  ParagraphSkia.new paragraph palette.

End Sample.

(* ================================================================== *)
(** ** Vocabulary of the statements *)

Module Spec.

(** The data of the two floating-point formats. *)
Definition is_binary32 (x : spec_float) : bool := valid_binary 24 128 x.
Definition is_binary64 (x : spec_float) : bool := valid_binary 53 1024 x.

(** Two data denote the same number: the same zero, infinity or NaN, or
    finite numbers of one sign whose mantissas agree once they are brought
    to the smaller exponent. *)
Definition same_value (x y : spec_float) : Prop :=
  match x, y with
  | S754_finite s1 m1 e1, S754_finite s2 m2 e2 =>
      s1 = s2
      /\ Zpos m1 * 2 ^ (e1 - Z.min e1 e2) = Zpos m2 * 2 ^ (e2 - Z.min e1 e2)
  | _, _ => x = y
  end.

Definition is_some {A} (o : option A) : bool :=
  match o with Some _ => true | None => false end.

(** The painter after one more command reached the builder. *)
Definition issued (o : DisplayListBuilder.op)
    (s : DisplayListParagraphPainter.t) : DisplayListParagraphPainter.t :=
  {| DisplayListParagraphPainter.builder_ :=
       DisplayListParagraphPainter.builder_ s ++ [o];
     DisplayListParagraphPainter.dl_paints_ :=
       DisplayListParagraphPainter.dl_paints_ s |}.

(** The index that [id] becomes is inside the palette. *)
Definition index_in_bounds (paints : list DlPaint.t) (id : skt.PaintID)
  : bool :=
  to_size_t id <? vec_size paints.

Definition paint_in_bounds (paints : list DlPaint.t) (has : bool)
    (v : skt.SkPaintOrID) : bool :=
  negb has
  || match v with
     | skt.ofSkPaint _ => true
     | skt.ofPaintID id => index_in_bounds paints id
     end.

(** Every paint index that [skia] carries is inside the palette. *)
Definition style_in_bounds (paints : list DlPaint.t)
    (skia : skt.TextStyle.t) : bool :=
  paint_in_bounds paints (skt.TextStyle.hasBackground skia)
    (skt.TextStyle.getBackgroundPaintOrID skia)
  && paint_in_bounds paints (skt.TextStyle.hasForeground skia)
       (skt.TextStyle.getForegroundPaintOrID skia).

(** The styles of the runs of the lines, in the order of iteration. *)
Definition line_styles (skm : skt.LineMetrics) : list skt.TextStyle.t :=
  map (fun sk_iter => skt.text_style (snd sk_iter)) (skt.fLineMetrics skm).

Definition all_styles (metrics : list skt.LineMetrics)
  : list skt.TextStyle.t :=
  flat_map line_styles metrics.

Definition metrics_in_bounds (paints : list DlPaint.t)
    (metrics : list skt.LineMetrics) : bool :=
  forallb (style_in_bounds paints) (all_styles metrics).

Section Expected.
Variable TextStyle_new : TextStyle.t.

(** What [SkiaToTxt] returns for [skia] when the palette is [paints]. *)
Definition converted (paints : list DlPaint.t) (skia : skt.TextStyle.t)
  : outcome TextStyle.t :=
  fst (ParagraphSkia.SkiaToTxt TextStyle_new skia
         (ParagraphSkia.new tt paints)).

Fixpoint convert_all (paints : list DlPaint.t)
    (styles : list skt.TextStyle.t) : outcome (list TextStyle.t) :=
  match styles with
  | [] => Ok []
  | skia :: rest =>
      match converted paints skia with
      | Fail e => Fail e
      | Ok style =>
          match convert_all paints rest with
          | Fail e => Fail e
          | Ok l => Ok (style :: l)
          end
      end
  end.
End Expected.

(** The line [txtm] once the runs are attached, when the first of their
    styles is stored at [base]. *)
Fixpoint expected_runs (base : nat) (runs : list (Z * skt.StyleMetrics))
    (txtm : LineMetrics.t) : LineMetrics.t :=
  match runs with
  | [] => txtm
  | sk_iter :: rest =>
      expected_runs (S base) rest
        (LineMetrics.emplace_run (fst sk_iter)
           {| RunMetrics.text_style := base;
              RunMetrics.font_metrics := skt.font_metrics (snd sk_iter) |}
           txtm)
  end.

Fixpoint expected_lines (base : nat) (metrics : list skt.LineMetrics)
  : list LineMetrics.t :=
  match metrics with
  | [] => []
  | skm :: rest =>
      expected_runs base (skt.fLineMetrics skm) (ParagraphSkia.new_line skm)
      :: expected_lines (base + List.length (skt.fLineMetrics skm)) rest
  end.

(** The cache and its store are in step: both empty, or a cache whose
    runs all point inside the store. *)
Definition cache_consistent {P} (s : ParagraphSkia.t P) : Prop :=
  match ParagraphSkia.line_metrics_ s with
  | None => ParagraphSkia.line_metrics_styles_ s = []
  | Some lines =>
      Forall
        (fun txtm =>
           Forall
             (fun run =>
                (RunMetrics.text_style (snd run)
                 < List.length (ParagraphSkia.line_metrics_styles_ s))%nat)
             (LineMetrics.run_metrics txtm))
        lines
  end.

End Spec.

(* ================================================================== *)
(** ** Vocabulary of the further properties *)

Module Behaviour.

Definition named_weights : list FontWeight :=
  [w100; w200; w300; w400; w500; w600; w700; w800; w900].

(** The callbacks that draw: all but the text calls with a null blob. *)
Definition draws (c : skt.PainterCall) : bool :=
  match c with
  | skt.drawTextBlob None _ _ _ => false
  | skt.drawTextShadow None _ _ _ _ => false
  | _ => true
  end.

Definition drawn (calls : list skt.PainterCall) : nat :=
  List.length (filter draws calls).

(** The callbacks that read the palette. *)
Definition reads_palette (c : skt.PainterCall) : bool :=
  match c with
  | skt.drawTextBlob (Some _) _ _ _ => true
  | skt.drawRect _ _ => true
  | _ => false
  end.

(** The commands that change the builder's drawing state, and the ones a
    callback stands for. *)
Definition is_state_op (o : DisplayListBuilder.op) : bool :=
  match o with
  | DisplayListBuilder.ClipRect _ _ _ | DisplayListBuilder.Translate _ _
  | DisplayListBuilder.Save | DisplayListBuilder.Restore => true
  | _ => false
  end.

Definition state_ops_of_call (c : skt.PainterCall)
  : list DisplayListBuilder.op :=
  match c with
  | skt.clipRect rect => [DisplayListBuilder.ClipRect rect kIntersect false]
  | skt.translate dx dy => [DisplayListBuilder.Translate dx dy]
  | skt.save => [DisplayListBuilder.Save]
  | skt.restore => [DisplayListBuilder.Restore]
  | _ => []
  end.

(** The two paint members of a converted style, given the two of the
    default style: an immediate paint fills the first, a palette index the
    second, and no paint leaves both. *)
Definition expected_members (paints : list DlPaint.t) (has : bool)
    (v : skt.SkPaintOrID) (sk0 : option SkPaint) (dl0 : option DlPaint.t)
  : option SkPaint * option DlPaint.t :=
  if has then
    match v with
    | skt.ofSkPaint p => (Some p, dl0)
    | skt.ofPaintID id => (sk0, nth_error paints (Z.to_nat (to_size_t id)))
    end
  else (sk0, dl0).

Fixpoint no_nul (s : string) : bool :=
  match s with
  | EmptyString => true
  | String c rest => negb (Ascii.eqb c Ascii.zero) && no_nul rest
  end.

(** The keys of a [std::map], as its iteration gives them. *)
Definition keys_increasing {V} (m : list (Z * V)) : Prop :=
  StronglySorted Z.lt (map fst m).

(** The runs of a line when the style of the first is stored at [base]
    and the others follow it. *)
Fixpoint indexed_runs (base : nat) (runs : list (Z * skt.StyleMetrics))
  : list (Z * RunMetrics.t) :=
  match runs with
  | [] => []
  | sk_iter :: rest =>
      (fst sk_iter,
       {| RunMetrics.text_style := base;
          RunMetrics.font_metrics := skt.font_metrics (snd sk_iter) |})
      :: indexed_runs (S base) rest
  end.


(** The run [run] of the cache stands for the run [sk_iter] of the
    paragraph: same key, same font metrics, and its pointer leads to the
    conversion of that run's style. *)
Definition run_refers (TextStyle_new : TextStyle.t)
    (paints : list DlPaint.t) (store : list TextStyle.t)
    (sk_iter : Z * skt.StyleMetrics) (run : Z * RunMetrics.t) : Prop :=
  fst run = fst sk_iter
  /\ RunMetrics.font_metrics (snd run) = skt.font_metrics (snd sk_iter)
  /\ exists style,
       nth_error store (RunMetrics.text_style (snd run)) = Some style
       /\ Spec.converted TextStyle_new paints
            (skt.text_style (snd sk_iter))
          = Ok style.

(** The member functions that write the cache. *)
Definition touches_cache (m : ParagraphSkia.method) : bool :=
  match m with
  | ParagraphSkia.mLayout _ | ParagraphSkia.mGetLineMetrics => true
  | _ => false
  end.

Definition is_Paint (m : ParagraphSkia.method) : bool :=
  match m with
  | ParagraphSkia.mPaint _ _ _ => true
  | _ => false
  end.

Definition painter_failure (e : failure) : Prop :=
  e = bad_variant_access \/ e = dcheck_failed \/ e = out_of_range.

End Behaviour.

(** Further data to run the wrapper on. *)
Module MoreSamples.

(** A paragraph that paints a rectangle between a save and a restore, and
    an empty text run. *)
Definition calls : list skt.PainterCall :=
  [skt.save;
   skt.translate Sample.one Sample.one;
   skt.drawRect Sample.unit_rect (skt.ofPaintID 1);
   skt.drawTextBlob None Sample.one Sample.one (skt.ofPaintID 0);
   skt.restore].

Definition painting_wrapper : ParagraphSkia.t CountingParagraph.t :=
  ParagraphSkia.new
    {| CountingParagraph.width := Sample.one;
       CountingParagraph.lines := CountingParagraph.lines Sample.paragraph;
       CountingParagraph.calls := calls;
       CountingParagraph.queries := 0 |}
    Sample.palette.

(** A paragraph one of whose styles carries the index 5. *)
Definition broken_wrapper : ParagraphSkia.t CountingParagraph.t :=
  ParagraphSkia.new
    {| CountingParagraph.width := Sample.one;
       CountingParagraph.lines :=
         [Sample.line 0 [(0, Sample.run 0); (4, Sample.run 5)]];
       CountingParagraph.calls :=
         [skt.save; skt.drawRect Sample.unit_rect (skt.ofPaintID 5)];
       CountingParagraph.queries := 0 |}
    Sample.palette.

End MoreSamples.

(* ================================================================== *)
(** * Properties *)

Unset Implicit Arguments.

(** ** Machine arithmetic *)

Lemma int_wrap_id (z : Z) : int_min <= z <= int_max -> int_wrap z = z.
Proof.
  unfold int_min, int_max, int_wrap. intros Hz.
  rewrite Z.mod_small; lia.
Qed.

Lemma quot_100_bounds (z : Z) :
  int_min <= z <= int_max -> int_min <= Z.quot z 100 <= int_max.
Proof.
  unfold int_min, int_max. intros Hz.
  destruct (Z_le_gt_dec 0 z) as [Hpos | Hneg].
  - rewrite Z.quot_div_nonneg by lia.
    pose proof (Z.div_pos z 100 Hpos ltac:(lia)).
    pose proof (Z.div_le_upper_bound z 100 (2 ^ 31 - 1) ltac:(lia) ltac:(lia)).
    lia.
  - pose proof (Z.quot_opp_l z 100 ltac:(lia)) as Hopp.
    rewrite Z.quot_div_nonneg in Hopp by lia.
    pose proof (Z.div_pos (- z) 100 ltac:(lia) ltac:(lia)).
    pose proof (Z.div_le_upper_bound (- z) 100 (2 ^ 31) ltac:(lia) ltac:(lia)).
    lia.
Qed.

(** Without overflow the function is the mathematical formula. *)
Lemma GetTxtFontWeight_formula (font_weight : Z) :
  int_min + 100 <= font_weight <= int_max ->
  GetTxtFontWeight font_weight
  = FontWeight_of_int (std_clamp (Z.quot (font_weight - 100) 100) 0 8).
Proof.
  intros Hfw. unfold GetTxtFontWeight, int_sub, int_div.
  rewrite (int_wrap_id (font_weight - 100)) by (unfold int_min, int_max in *; lia).
  rewrite int_wrap_id
    by (apply quot_100_bounds; unfold int_min, int_max in *; lia).
  reflexivity.
Qed.





(** C8: the upright slant maps to [normal]; the italic and the oblique
    slant both map to [italic]. *)
Theorem GetTxtFontStyle_two_valued :
  GetTxtFontStyle kUpright_Slant = normal
  /\ GetTxtFontStyle kItalic_Slant = italic
  /\ GetTxtFontStyle kOblique_Slant = italic
  /\ forall font_slant,
       GetTxtFontStyle font_slant
       = if Slant_eqb font_slant kUpright_Slant then normal else italic.
Proof. repeat split. Qed.

(* ================================================================== *)
(** ** Widening a scalar *)

Lemma digits2_pos_iter_xO (m d : positive) :
  Zpos (digits2_pos (Pos.iter xO m d)) = Zpos (digits2_pos m) + Zpos d.
Proof.
  induction d as [| d IH] using Pos.peano_ind.
  - cbn. lia.
  - rewrite Pos.iter_succ. cbn [digits2_pos]. lia.
Qed.

Lemma iter_xO_value (m d : positive) :
  Zpos (Pos.iter xO m d) = Zpos m * 2 ^ Zpos d.
Proof.
  induction d as [| d IH] using Pos.peano_ind.
  - cbn. lia.
  - rewrite Pos.iter_succ, Pos2Z.inj_succ, Z.pow_succ_r by lia.
    rewrite Pos2Z.inj_xO, IH. lia.
Qed.

(** Rounding a binary32 mantissa to binary64 only shifts it left: the
    shift [d] brings the exponent down to the one binary64 wants, and no
    bit is dropped. *)
Lemma binary_round_widens (s : bool) (m : positive) (e : Z) :
  bounded 24 128 m e = true ->
  exists d : positive,
    Zpos d = e - fexp 53 1024 (Zpos (digits2_pos m) + e)
    /\ binary_round 53 1024 s m e
       = S754_finite s (Pos.iter xO m d) (e - Zpos d).
Proof.
  unfold bounded, canonical_mantissa. intros Hb.
  apply andb_true_iff in Hb. destruct Hb as [Hcanon Hmax].
  apply Z.eqb_eq in Hcanon. apply Z.leb_le in Hmax.
  unfold fexp, emin in Hcanon.
  set (E := fexp 53 1024 (Zpos (digits2_pos m) + e)).
  assert (HE : E < e /\ E <= 971) by (unfold E, fexp, emin; lia).
  destruct (e - E) as [| d | d] eqn:Hd; try lia.
  exists d. split; [reflexivity |].
  unfold binary_round, shl_align. fold E.
  replace (E - e) with (Zneg d) by lia.
  unfold binary_round_aux, shr_fexp. cbn [Zdigits2 shr_record_of_loc].
  rewrite digits2_pos_iter_xO.
  replace (Zpos (digits2_pos m) + Zpos d + E) with (Zpos (digits2_pos m) + e)
    by lia.
  fold E. rewrite Z.sub_diag.
  cbn [shr shr_m loc_of_shr_record round_nearest_even Zdigits2
         shr_record_of_loc].
  rewrite digits2_pos_iter_xO.
  replace (Zpos (digits2_pos m) + Zpos d + E) with (Zpos (digits2_pos m) + e)
    by lia.
  fold E. rewrite Z.sub_diag. cbn [shr shr_m].
  replace (E <=? 1024 - 53) with true by (symmetry; apply Z.leb_le; lia).
  f_equal. lia.
Qed.

Lemma SkScalarToDouble_finite (s : bool) (m : positive) (e : Z) :
  bounded 24 128 m e = true ->
  exists d : positive,
    SkScalarToDouble (S754_finite s m e)
    = S754_finite s (Pos.iter xO m d) (e - Zpos d)
    /\ bounded 53 1024 (Pos.iter xO m d) (e - Zpos d) = true.
Proof.
  intros Hb. destruct (binary_round_widens s m e Hb) as [d [Hd Hround]].
  exists d. split.
  - unfold SkScalarToDouble. destruct s; exact Hround.
  - unfold bounded, canonical_mantissa in *.
    apply andb_true_iff in Hb. destruct Hb as [Hcanon Hmax].
    apply Z.eqb_eq in Hcanon. apply Z.leb_le in Hmax.
    rewrite digits2_pos_iter_xO.
    unfold fexp, emin in *.
    apply andb_true_iff. split; [apply Z.eqb_eq | apply Z.leb_le]; lia.
Qed.

(** [SkScalarToDouble] is exact: the double is a binary64 datum that
    denotes the number the scalar denotes. *)
Lemma SkScalarToDouble_exact (x : SkScalar) :
  Spec.is_binary32 x = true ->
  Spec.same_value x (SkScalarToDouble x)
  /\ Spec.is_binary64 (SkScalarToDouble x) = true.
Proof.
  unfold Spec.is_binary32, Spec.is_binary64.
  destruct x as [s | s | | s m e]; cbn [valid_binary]; intros Hb;
    try (split; reflexivity).
  destruct (SkScalarToDouble_finite s m e Hb) as [d [-> Hvalid]].
  split; [| exact Hvalid].
  cbn [Spec.same_value]. split; [reflexivity |].
  replace (Z.min e (e - Zpos d)) with (e - Zpos d) by lia.
  rewrite Z.sub_diag, Z.mul_1_r, iter_xO_value.
  f_equal. f_equal. lia.
Qed.

(** The test [x > 0.0], made on the double, is the test on the scalar:
    true for the positive numbers and for plus infinity. *)
Lemma double_gt_zero_of_scalar (x : SkScalar) :
  Spec.is_binary32 x = true ->
  double_gt (SkScalarToDouble x) double_zero
  = match x with
    | S754_finite false _ _ | S754_infinity false => true
    | _ => false
    end.
Proof.
  unfold Spec.is_binary32, double_gt, double_zero.
  destruct x as [s | s | | s m e]; cbn [valid_binary]; intros Hb.
  - reflexivity.
  - destruct s; reflexivity.
  - reflexivity.
  - destruct (SkScalarToDouble_finite s m e Hb) as [d [-> _]].
    destruct s; reflexivity.
Qed.

(* ================================================================== *)
(** ** The painter *)

Lemma to_size_t_nonneg (z : Z) : 0 <= to_size_t z.
Proof.
  unfold to_size_t, size_max. apply Z.mod_pos_bound. reflexivity.
Qed.

Lemma vec_at_in_bounds {A} (v : list A) (i : Z) :
  0 <= i < vec_size v -> exists a, vec_at v i = Ok a.
Proof.
  unfold vec_at, vec_size. intros [Hlo Hhi].
  destruct (Z.ltb_spec i 0) as [Hneg | _]; [lia |].
  destruct (nth_error v (Z.to_nat i)) as [a |] eqn:Hnth.
  - exists a. reflexivity.
  - apply nth_error_None in Hnth. lia.
Qed.

Lemma vec_at_out_of_bounds {A} (v : list A) (i : Z) :
  ~ i < vec_size v -> vec_at v i = Fail out_of_range.
Proof.
  unfold vec_at, vec_size. intros Hhi.
  destruct (Z.ltb_spec i 0) as [Hneg | Hpos]; [reflexivity |].
  destruct (nth_error v (Z.to_nat i)) as [a |] eqn:Hnth; [| reflexivity].
  assert (Hlt : (Z.to_nat i < List.length v)%nat).
  { apply nth_error_Some. rewrite Hnth. discriminate. }
  lia.
Qed.

Module PainterFacts.
Import DisplayListParagraphPainter.

Section WithBuildMode.
Context (mode : BuildMode).

Lemma drawRect_index (rect : SkRect) (id : skt.PaintID) (s : t)
    (dl_paint : DlPaint.t) :
  vec_at (dl_paints_ s) (to_size_t id) = Ok dl_paint ->
  drawRect rect (skt.ofPaintID id) s
  = (Ok tt, Spec.issued (DisplayListBuilder.DrawRect rect dl_paint) s).
Proof.
  intros Hat. unfold drawRect, bind, lift, gets, FML_DCHECK. cbn.
  assert (Hlt : to_size_t id < vec_size (dl_paints_ s)).
  { destruct (Z_lt_ge_dec (to_size_t id) (vec_size (dl_paints_ s)))
      as [Hlt | Hge]; [exact Hlt |].
    rewrite vec_at_out_of_bounds in Hat by lia. discriminate. }
  apply Z.ltb_lt in Hlt. rewrite Hlt, andb_false_r. cbn.
  rewrite Hat. reflexivity.
Qed.

Lemma drawTextBlob_index (blob : SkTextBlob) (x y : SkScalar)
    (id : skt.PaintID) (s : t) (dl_paint : DlPaint.t) :
  vec_at (dl_paints_ s) (to_size_t id) = Ok dl_paint ->
  drawTextBlob (Some blob) x y (skt.ofPaintID id) s
  = (Ok tt, Spec.issued (DisplayListBuilder.DrawTextBlob blob x y dl_paint) s).
Proof.
  intros Hat. unfold drawTextBlob, bind, lift, gets, FML_DCHECK. cbn.
  assert (Hlt : to_size_t id < vec_size (dl_paints_ s)).
  { destruct (Z_lt_ge_dec (to_size_t id) (vec_size (dl_paints_ s)))
      as [Hlt | Hge]; [exact Hlt |].
    rewrite vec_at_out_of_bounds in Hat by lia. discriminate. }
  apply Z.ltb_lt in Hlt. rewrite Hlt, andb_false_r. cbn.
  rewrite Hat. reflexivity.
Qed.

Lemma drawRect_immediate (rect : SkRect) (p : SkPaint) (s : t) :
  drawRect rect (skt.ofSkPaint p) s = (Fail bad_variant_access, s).
Proof. reflexivity. Qed.

Lemma drawTextBlob_immediate (blob : SkTextBlob) (x y : SkScalar)
    (p : SkPaint) (s : t) :
  drawTextBlob (Some blob) x y (skt.ofSkPaint p) s
  = (Fail bad_variant_access, s).
Proof. reflexivity. Qed.

Lemma drawRect_checked (rect : SkRect) (id : skt.PaintID) (s : t) :
  debug_build = true ->
  ~ to_size_t id < vec_size (dl_paints_ s) ->
  drawRect rect (skt.ofPaintID id) s = (Fail dcheck_failed, s).
Proof.
  intros Hdebug Hout. unfold drawRect, bind, lift, gets, FML_DCHECK. cbn.
  apply Z.ltb_nlt in Hout. rewrite Hout, Hdebug. reflexivity.
Qed.

Lemma drawTextBlob_checked (blob : SkTextBlob) (x y : SkScalar)
    (id : skt.PaintID) (s : t) :
  debug_build = true ->
  ~ to_size_t id < vec_size (dl_paints_ s) ->
  drawTextBlob (Some blob) x y (skt.ofPaintID id) s = (Fail dcheck_failed, s).
Proof.
  intros Hdebug Hout. unfold drawTextBlob, bind, lift, gets, FML_DCHECK. cbn.
  apply Z.ltb_nlt in Hout. rewrite Hout, Hdebug. reflexivity.
Qed.

End WithBuildMode.
End PainterFacts.

(** An index inside the palette: both calls go through to the builder. *)
Lemma painter_reissues_indexed_paint_core (mode : BuildMode)
    (s : DisplayListParagraphPainter.t) (id : skt.PaintID)
    (rect : SkRect) (blob : SkTextBlob) (x y : SkScalar) :
  to_size_t id < vec_size (DisplayListParagraphPainter.dl_paints_ s) ->
  exists dl_paint,
    DisplayListParagraphPainter.drawRect rect (skt.ofPaintID id) s
    = (Ok tt, Spec.issued (DisplayListBuilder.DrawRect rect dl_paint) s)
    /\ DisplayListParagraphPainter.drawTextBlob (Some blob) x y
         (skt.ofPaintID id) s
       = (Ok tt,
          Spec.issued (DisplayListBuilder.DrawTextBlob blob x y dl_paint) s).
Proof.
  intros Hin.
  destruct (vec_at_in_bounds (DisplayListParagraphPainter.dl_paints_ s)
              (to_size_t id)) as [dl_paint Hat].
  { split; [apply to_size_t_nonneg | exact Hin]. }
  exists dl_paint.
  split; [apply PainterFacts.drawRect_index; exact Hat |].
  apply PainterFacts.drawTextBlob_index; exact Hat.
Qed.

(** C3, as amended: a draw call that carries a palette index inside the
    palette ([drawRect], and [drawTextBlob] with a blob) is reissued on the
    builder, as one command, with the palette's paint at that index; the
    painter takes the index alternative only, and with an immediate paint
    [std::get<PaintID>] fails and no command reaches the builder. *)
Theorem painter_reissues_indexed_paint (mode : BuildMode)
    (s : DisplayListParagraphPainter.t) (id : skt.PaintID)
    (rect : SkRect) (blob : SkTextBlob) (x y : SkScalar) :
  to_size_t id < vec_size (DisplayListParagraphPainter.dl_paints_ s) ->
  exists dl_paint,
    vec_at (DisplayListParagraphPainter.dl_paints_ s) (to_size_t id)
    = Ok dl_paint
    /\ DisplayListParagraphPainter.drawRect rect (skt.ofPaintID id) s
       = (Ok tt,
          Spec.issued (DisplayListBuilder.DrawRect rect dl_paint) s)
    /\ DisplayListParagraphPainter.drawTextBlob (Some blob) x y
         (skt.ofPaintID id) s
       = (Ok tt,
          Spec.issued
            (DisplayListBuilder.DrawTextBlob blob x y dl_paint) s)
    /\ forall p : SkPaint,
         DisplayListParagraphPainter.drawRect rect (skt.ofSkPaint p) s
         = (Fail bad_variant_access, s)
         /\ DisplayListParagraphPainter.drawTextBlob (Some blob) x y
              (skt.ofSkPaint p) s
            = (Fail bad_variant_access, s).
Proof.
  intros Hin.
  destruct (vec_at_in_bounds (DisplayListParagraphPainter.dl_paints_ s)
              (to_size_t id)) as [dl_paint Hat].
  { split; [apply to_size_t_nonneg | exact Hin]. }
  exists dl_paint. split; [exact Hat |].
  split; [apply PainterFacts.drawRect_index; exact Hat |].
  split; [apply PainterFacts.drawTextBlob_index; exact Hat |].
  intros p. split; reflexivity.
Qed.

Lemma painter_reissues_indexed_paint_witness :
  DisplayListParagraphPainter.builder_
    (snd (@DisplayListParagraphPainter.drawRect Sample.release
            Sample.unit_rect (skt.ofPaintID 1) Sample.painter))
  = [DisplayListBuilder.Save;
     DisplayListBuilder.DrawRect Sample.unit_rect Sample.red].
Proof.
  destruct (painter_reissues_indexed_paint Sample.release Sample.painter 1
              Sample.unit_rect Sample.blob Sample.one Sample.one
              ltac:(vm_compute; reflexivity))
    as [dl_paint [Hat [Hrect _]]].
  rewrite Hrect. vm_compute in Hat. injection Hat as <-. reflexivity.
Defined.

(** An immediate paint is not drawn: [drawRect] and [drawTextBlob] both
    stop at [std::get<PaintID>] and the builder keeps its one command. *)
Lemma painter_rejects_immediate_paint :
  @DisplayListParagraphPainter.drawRect Sample.debug Sample.unit_rect
    (skt.ofSkPaint (SkPaint_handle 0)) Sample.painter
  = (Fail bad_variant_access, Sample.painter)
  /\ @DisplayListParagraphPainter.drawTextBlob Sample.debug
       (Some Sample.blob) Sample.one Sample.one
       (skt.ofSkPaint (SkPaint_handle 0)) Sample.painter
     = (Fail bad_variant_access, Sample.painter)
  /\ DisplayListParagraphPainter.builder_ Sample.painter
     = [DisplayListBuilder.Save].
Proof. repeat split. Qed.

(** C10: with a null blob, [drawTextBlob] and [drawTextShadow] return at
    once, whatever the other arguments are; the painter, and with it the
    builder's command list, is the one before the call. *)
Theorem null_blob_issues_nothing (mode : BuildMode)
    (s : DisplayListParagraphPainter.t) (x y : SkScalar)
    (paint : skt.SkPaintOrID) (color : SkColor) (blur_sigma : SkScalar) :
  DisplayListParagraphPainter.drawTextBlob None x y paint s = (Ok tt, s)
  /\ DisplayListParagraphPainter.drawTextShadow None x y color blur_sigma s
     = (Ok tt, s)
  /\ DisplayListParagraphPainter.builder_
       (snd (DisplayListParagraphPainter.drawTextBlob None x y paint s))
     = DisplayListParagraphPainter.builder_ s
  /\ DisplayListParagraphPainter.builder_
       (snd (DisplayListParagraphPainter.drawTextShadow None x y color
               blur_sigma s))
     = DisplayListParagraphPainter.builder_ s.
Proof. repeat split. Qed.

(** C5: the paint of [toDlPaint] has the decoration's colour and stroke
    width, and a dash effect exactly when the decoration has one, made of
    its on-length and off-length; the paint of [drawTextShadow] has the
    given colour, and a blur filter of that sigma exactly when
    [blur_sigma > 0.0], which for a binary32 [blur_sigma] means a positive
    number or plus infinity. *)
Theorem paint_attributes_translated (mode : BuildMode)
    (decor_style : skt.DecorationStyle) (draw_style : DlDrawStyle)
    (s : DisplayListParagraphPainter.t) (blob : SkTextBlob) (x y : SkScalar)
    (color : SkColor) (blur_sigma : SkScalar) :
  let paint := DisplayListParagraphPainter.toDlPaint decor_style draw_style in
  DlPaint.getColor paint = skt.getColor decor_style
  /\ DlPaint.getStrokeWidth paint = skt.getStrokeWidth decor_style
  /\ Spec.is_some (DlPaint.getPathEffect paint)
     = Spec.is_some (skt.getDashPathEffect decor_style)
  /\ DlPaint.getPathEffect paint
     = option_map
         (fun effect =>
            {| intervals := [skt.fOnLength effect; skt.fOffLength effect];
               phase := S754_zero false |})
         (skt.getDashPathEffect decor_style)
  /\ exists shadow_paint,
       DisplayListParagraphPainter.drawTextShadow (Some blob) x y color
         blur_sigma s
       = (Ok tt,
          Spec.issued
            (DisplayListBuilder.DrawTextBlob blob x y shadow_paint) s)
       /\ DlPaint.getColor shadow_paint = color
       /\ Spec.is_some (DlPaint.getMaskFilter shadow_paint)
          = double_gt (SkScalarToDouble blur_sigma) double_zero
       /\ DlPaint.getMaskFilter shadow_paint
          = (if double_gt (SkScalarToDouble blur_sigma) double_zero
             then Some {| blur_style := kNormal_SkBlurStyle;
                          sigma := blur_sigma;
                          respect_ctm := false |}
             else None)
       /\ (Spec.is_binary32 blur_sigma = true ->
           Spec.is_some (DlPaint.getMaskFilter shadow_paint)
           = match blur_sigma with
             | S754_finite false _ _ | S754_infinity false => true
             | _ => false
             end).
Proof.
  cbv zeta. unfold DisplayListParagraphPainter.toDlPaint.
  destruct (skt.getDashPathEffect decor_style) as [effect |];
    (split; [reflexivity |]); (split; [reflexivity |]);
    (split; [reflexivity |]); (split; [reflexivity |]).
  all: unfold DisplayListParagraphPainter.drawTextShadow;
    pose proof (double_gt_zero_of_scalar blur_sigma) as Hsign;
    destruct (double_gt (SkScalarToDouble blur_sigma) double_zero);
    eexists; (split; [reflexivity |]); (split; [reflexivity |]);
    (split; [reflexivity |]); (split; [reflexivity |]); exact Hsign.
Qed.

Lemma paint_attributes_translated_witness :
  exists shadow_paint,
    snd (@DisplayListParagraphPainter.drawTextShadow (Some Sample.blob)
           Sample.one Sample.one 4278190335 Sample.one Sample.painter)
    = Spec.issued
        (DisplayListBuilder.DrawTextBlob Sample.blob Sample.one Sample.one
           shadow_paint)
        Sample.painter
    /\ DlPaint.getColor shadow_paint = 4278190335
    /\ Spec.is_some (DlPaint.getMaskFilter shadow_paint) = true.
Proof.
  destruct (paint_attributes_translated Sample.debug Sample.dashed kStroke
              Sample.painter Sample.blob Sample.one Sample.one 4278190335
              Sample.one)
    as [_ [_ [_ [_ [shadow_paint [Hdraw [Hcolor [_ [_ Hblur]]]]]]]]].
  exists shadow_paint.
  split; [rewrite Hdraw; reflexivity |]. split; [exact Hcolor |].
  apply Hblur. reflexivity.
Defined.

(* ================================================================== *)
(** ** The style converter *)

Module ConverterFacts.
Import ParagraphSkia.

Section WithDefaults.
Variable TextStyle_new : TextStyle.t.

Lemma paint_members_run {P} (has : bool) (v : skt.SkPaintOrID)
    (sk0 : option SkPaint) (dl0 : option DlPaint.t) (s : t P) :
  paint_members has v sk0 dl0 s
  = (match has, v with
     | false, _ => Ok (sk0, dl0)
     | true, skt.ofSkPaint p => Ok (Some p, dl0)
     | true, skt.ofPaintID id =>
         match vec_at (dl_paints_ s) (to_size_t id) with
         | Ok dl => Ok (sk0, Some dl)
         | Fail e => Fail e
         end
     end, s).
Proof.
  destruct has, v as [p | id]; try reflexivity.
  unfold paint_members, bind, lift, gets. cbn.
  destruct (vec_at (dl_paints_ s) (to_size_t id)); reflexivity.
Qed.

(** [SkiaToTxt] gives back the wrapper it ran on, and its result is the
    one of a wrapper that has the palette and nothing else. *)
Lemma SkiaToTxt_converted {P} (skia : skt.TextStyle.t) (s : t P) :
  SkiaToTxt TextStyle_new skia s
  = (Spec.converted TextStyle_new (dl_paints_ s) skia, s).
Proof.
  unfold Spec.converted, SkiaToTxt, bind.
  rewrite !paint_members_run. cbn [dl_paints_ new].
  destruct (skt.TextStyle.hasBackground skia),
    (skt.TextStyle.getBackgroundPaintOrID skia) as [bp | bid]; cbn;
    try destruct (vec_at (dl_paints_ s) (to_size_t bid)); cbn;
    rewrite ?paint_members_run; cbn [dl_paints_ new]; try reflexivity;
    destruct (skt.TextStyle.hasForeground skia),
      (skt.TextStyle.getForegroundPaintOrID skia) as [fp | fid]; cbn;
    try destruct (vec_at (dl_paints_ s) (to_size_t fid)); reflexivity.
Qed.

Lemma paint_in_bounds_ok (paints : list DlPaint.t) (has : bool)
    (v : skt.SkPaintOrID) (sk0 : option SkPaint) (dl0 : option DlPaint.t) :
  Spec.paint_in_bounds paints has v = true ->
  exists r,
    match has, v with
    | false, _ => Ok (sk0, dl0)
    | true, skt.ofSkPaint p => Ok (Some p, dl0)
    | true, skt.ofPaintID id =>
        match vec_at paints (to_size_t id) with
        | Ok dl => Ok (sk0, Some dl)
        | Fail e => Fail e
        end
    end = Ok r.
Proof.
  unfold Spec.paint_in_bounds, Spec.index_in_bounds.
  destruct has, v as [p | id]; cbn; intros Hin; try (eexists; reflexivity).
  apply Z.ltb_lt in Hin.
  destruct (vec_at_in_bounds paints (to_size_t id)) as [dl Hdl].
  { split; [apply to_size_t_nonneg | exact Hin]. }
  rewrite Hdl. eexists; reflexivity.
Qed.

Lemma converted_in_bounds (paints : list DlPaint.t)
    (skia : skt.TextStyle.t) :
  Spec.style_in_bounds paints skia = true ->
  exists style, Spec.converted TextStyle_new paints skia = Ok style.
Proof.
  unfold Spec.style_in_bounds. intros Hin.
  apply andb_true_iff in Hin. destruct Hin as [Hbg Hfg].
  unfold Spec.converted, SkiaToTxt, bind.
  rewrite paint_members_run. cbn [dl_paints_ new].
  destruct (paint_in_bounds_ok paints _ _
              (TextStyle.background TextStyle_new)
              (TextStyle.background_dl TextStyle_new) Hbg) as [bg Hbg'].
  rewrite Hbg'. rewrite paint_members_run. cbn [dl_paints_ new].
  destruct (paint_in_bounds_ok paints _ _
              (TextStyle.foreground TextStyle_new)
              (TextStyle.foreground_dl TextStyle_new) Hfg) as [fg Hfg'].
  rewrite Hfg'. eexists. reflexivity.
Qed.

Lemma convert_all_in_bounds (paints : list DlPaint.t)
    (styles : list skt.TextStyle.t) :
  forallb (Spec.style_in_bounds paints) styles = true ->
  exists l, Spec.convert_all TextStyle_new paints styles = Ok l.
Proof.
  induction styles as [| skia rest IH]; cbn; intros Hall.
  - exists []. reflexivity.
  - apply andb_true_iff in Hall. destruct Hall as [Hhead Htail].
    destruct (converted_in_bounds paints skia Hhead) as [style ->].
    destruct (IH Htail) as [l ->]. eexists. reflexivity.
Qed.

Lemma convert_all_length (paints : list DlPaint.t)
    (styles : list skt.TextStyle.t) :
  forall l, Spec.convert_all TextStyle_new paints styles = Ok l ->
            List.length l = List.length styles.
Proof.
  induction styles as [| skia rest IH]; cbn; intros l Hl.
  - injection Hl as <-. reflexivity.
  - destruct (Spec.converted TextStyle_new paints skia); [| discriminate].
    destruct (Spec.convert_all TextStyle_new paints rest) as [l' |];
      [| discriminate].
    injection Hl as <-. cbn. f_equal. apply IH. reflexivity.
Qed.

Lemma convert_all_app (paints : list DlPaint.t)
    (a b : list skt.TextStyle.t) :
  Spec.convert_all TextStyle_new paints (a ++ b)
  = match Spec.convert_all TextStyle_new paints a with
    | Fail e => Fail e
    | Ok la =>
        match Spec.convert_all TextStyle_new paints b with
        | Fail e => Fail e
        | Ok lb => Ok (la ++ lb)
        end
    end.
Proof.
  induction a as [| skia rest IH]; cbn.
  - destruct (Spec.convert_all TextStyle_new paints b); reflexivity.
  - destruct (Spec.converted TextStyle_new paints skia); [| reflexivity].
    rewrite IH.
    destruct (Spec.convert_all TextStyle_new paints rest); [| reflexivity].
    destruct (Spec.convert_all TextStyle_new paints b); reflexivity.
Qed.

End WithDefaults.
End ConverterFacts.

(** C9: [SkiaToTxt] returns the same result for equal styles whenever the
    palettes are equal, whatever else the two wrappers hold, and it gives
    back the wrapper, paragraph included, as it found it. *)
Theorem SkiaToTxt_pure_deterministic {P Q : Type}
    (TextStyle_new : TextStyle.t) (skia1 skia2 : skt.TextStyle.t)
    (s1 : ParagraphSkia.t P) (s2 : ParagraphSkia.t Q) :
  skia1 = skia2 ->
  ParagraphSkia.dl_paints_ s1 = ParagraphSkia.dl_paints_ s2 ->
  fst (ParagraphSkia.SkiaToTxt TextStyle_new skia1 s1)
  = fst (ParagraphSkia.SkiaToTxt TextStyle_new skia2 s2)
  /\ snd (ParagraphSkia.SkiaToTxt TextStyle_new skia1 s1) = s1
  /\ snd (ParagraphSkia.SkiaToTxt TextStyle_new skia2 s2) = s2.
Proof.
  intros -> Hpalette.
  rewrite !ConverterFacts.SkiaToTxt_converted. cbn [fst snd].
  rewrite Hpalette. repeat split.
Qed.

(* ================================================================== *)
(** ** The line-metrics cache *)

Module CacheFacts.
Import ParagraphSkia.

Section WithParagraph.
Context {P : Type} {paragraph_class : skt.Paragraph P}.
Variable TextStyle_new : TextStyle.t.

Lemma convert_run_step (sk_iter : Z * skt.StyleMetrics) (s : t P)
    (before : list LineMetrics.t) (txtm : LineMetrics.t) :
  line_metrics_ s = Some (before ++ [txtm]) ->
  convert_run TextStyle_new sk_iter s
  = match Spec.converted TextStyle_new (dl_paints_ s) (skt.text_style (snd sk_iter)) with
    | Fail e => (Fail e, s)
    | Ok style =>
        (Ok tt,
         {| paragraph_ := paragraph_ s;
            dl_paints_ := dl_paints_ s;
            line_metrics_ :=
              Some (before
                    ++ [LineMetrics.emplace_run (fst sk_iter)
                          {| RunMetrics.text_style :=
                               List.length (line_metrics_styles_ s);
                             RunMetrics.font_metrics :=
                               skt.font_metrics (snd sk_iter) |}
                          txtm]);
            line_metrics_styles_ := line_metrics_styles_ s ++ [style] |})
    end.
Proof.
  intros Hlines. unfold convert_run, bind.
  rewrite ConverterFacts.SkiaToTxt_converted.
  destruct (Spec.converted TextStyle_new (dl_paints_ s) (skt.text_style (snd sk_iter)));
    [| reflexivity].
  unfold push_back_style, emplace_run_metrics, bind, gets. cbn.
  rewrite Hlines, rev_app_distr. cbn. rewrite rev_involutive. reflexivity.
Qed.

Lemma for_each_convert_run (runs : list (Z * skt.StyleMetrics)) :
  forall (s : t P) (before : list LineMetrics.t) (txtm : LineMetrics.t),
    line_metrics_ s = Some (before ++ [txtm]) ->
    match Spec.convert_all TextStyle_new (dl_paints_ s)
            (map (fun sk_iter => skt.text_style (snd sk_iter)) runs) with
    | Fail e => fst (for_each (convert_run TextStyle_new) runs s) = Fail e
    | Ok styles =>
        for_each (convert_run TextStyle_new) runs s
        = (Ok tt,
           {| paragraph_ := paragraph_ s;
              dl_paints_ := dl_paints_ s;
              line_metrics_ :=
                Some (before
                      ++ [Spec.expected_runs
                            (List.length (line_metrics_styles_ s)) runs txtm]);
              line_metrics_styles_ := line_metrics_styles_ s ++ styles |})
    end.
Proof.
  induction runs as [| sk_iter rest IH]; intros s before txtm Hlines.
  - cbn. unfold ret. destruct s as [p paints lines styles].
    cbn in *. subst lines. rewrite app_nil_r. reflexivity.
  - cbn [map Spec.convert_all for_each]. unfold bind.
    rewrite (convert_run_step sk_iter s before txtm Hlines).
    destruct (Spec.converted TextStyle_new (dl_paints_ s) (skt.text_style (snd sk_iter)))
      as [style | e]; [| reflexivity].
    match goal with
    | |- context [for_each _ rest ?s1] =>
        specialize (IH s1 before
                      (LineMetrics.emplace_run (fst sk_iter)
                         {| RunMetrics.text_style :=
                              List.length (line_metrics_styles_ s);
                            RunMetrics.font_metrics :=
                              skt.font_metrics (snd sk_iter) |} txtm)
                      eq_refl)
    end.
    cbn [dl_paints_ paragraph_ line_metrics_styles_] in IH.
    destruct (Spec.convert_all TextStyle_new (dl_paints_ s)
                (map (fun it => skt.text_style (snd it)) rest))
      as [styles | e]; [| exact IH].
    rewrite IH. rewrite length_app, Nat.add_1_r, <- app_assoc. reflexivity.
Qed.

Lemma convert_line_step (skm : skt.LineMetrics) (s : t P)
    (before : list LineMetrics.t) :
  line_metrics_ s = Some before ->
  match Spec.convert_all TextStyle_new (dl_paints_ s) (Spec.line_styles skm) with
  | Fail e => fst (convert_line TextStyle_new skm s) = Fail e
  | Ok styles =>
      convert_line TextStyle_new skm s
      = (Ok tt,
         {| paragraph_ := paragraph_ s;
            dl_paints_ := dl_paints_ s;
            line_metrics_ :=
              Some (before
                    ++ [Spec.expected_runs
                          (List.length (line_metrics_styles_ s))
                          (skt.fLineMetrics skm) (new_line skm)]);
            line_metrics_styles_ := line_metrics_styles_ s ++ styles |})
  end.
Proof.
  intros Hlines. unfold convert_line, emplace_back_line, bind, gets, modify.
  rewrite Hlines.
  exact (for_each_convert_run (skt.fLineMetrics skm)
           (set_line_metrics_ (Some (before ++ [new_line skm])) s)
           before (new_line skm) eq_refl).
Qed.

Lemma for_each_convert_line (metrics : list skt.LineMetrics) :
  forall (s : t P) (before : list LineMetrics.t),
    line_metrics_ s = Some before ->
    match Spec.convert_all TextStyle_new (dl_paints_ s) (Spec.all_styles metrics) with
    | Fail e => fst (for_each (convert_line TextStyle_new) metrics s) = Fail e
    | Ok styles =>
        for_each (convert_line TextStyle_new) metrics s
        = (Ok tt,
           {| paragraph_ := paragraph_ s;
              dl_paints_ := dl_paints_ s;
              line_metrics_ :=
                Some (before
                      ++ Spec.expected_lines
                           (List.length (line_metrics_styles_ s)) metrics);
              line_metrics_styles_ := line_metrics_styles_ s ++ styles |})
    end.
Proof.
  induction metrics as [| skm rest IH]; intros s before Hlines.
  - cbn. unfold ret. destruct s as [p paints lines styles].
    cbn in *. subst lines. rewrite !app_nil_r. reflexivity.
  - cbn [Spec.all_styles flat_map for_each Spec.expected_lines].
    rewrite ConverterFacts.convert_all_app. unfold bind.
    pose proof (convert_line_step skm s before Hlines) as Hline.
    destruct (Spec.convert_all TextStyle_new (dl_paints_ s) (Spec.line_styles skm))
      as [line_styles | e] eqn:Hconv.
    2:{ destruct (convert_line TextStyle_new skm s) as [[u | e'] s1];
          cbn in Hline; [discriminate | cbn; congruence]. }
    rewrite Hline.
    match goal with
    | |- context [for_each _ rest ?s1] =>
        specialize (IH s1 _ eq_refl)
    end.
    cbn [dl_paints_ paragraph_ line_metrics_styles_] in IH.
    fold (Spec.all_styles rest).
    destruct (Spec.convert_all TextStyle_new (dl_paints_ s) (Spec.all_styles rest))
      as [styles | e]; [| exact IH].
    rewrite IH. rewrite length_app.
    rewrite (ConverterFacts.convert_all_length _ _ _ _ Hconv).
    unfold Spec.line_styles. rewrite length_map.
    rewrite <- !app_assoc. reflexivity.
Qed.

(** A call on an empty cache asks the paragraph for its metrics and
    builds the cache and the store out of them. *)
Lemma GetLineMetrics_fresh (s : t P) :
  line_metrics_ s = None ->
  let metrics := fst (skt.getLineMetrics (paragraph_ s)) in
  let lines :=
    Spec.expected_lines (List.length (line_metrics_styles_ s)) metrics in
  match Spec.convert_all TextStyle_new (dl_paints_ s) (Spec.all_styles metrics) with
  | Fail e => fst (GetLineMetrics TextStyle_new s) = Fail e
  | Ok styles =>
      GetLineMetrics TextStyle_new s
      = (Ok lines,
         {| paragraph_ := snd (skt.getLineMetrics (paragraph_ s));
            dl_paints_ := dl_paints_ s;
            line_metrics_ := Some lines;
            line_metrics_styles_ := line_metrics_styles_ s ++ styles |})
  end.
Proof.
  intros Hnone. cbv zeta.
  unfold GetLineMetrics, bind, gets, on_paragraph, reserve_styles, modify, ret.
  rewrite Hnone.
  destruct (skt.getLineMetrics (paragraph_ s)) as [metrics p'] eqn:Hquery.
  cbn [fst snd].
  pose proof (for_each_convert_line metrics
                (set_line_metrics_ (Some []) (set_paragraph_ p' s)) []
                eq_refl) as Hloop.
  cbn [dl_paints_ paragraph_ line_metrics_styles_ set_line_metrics_
         set_paragraph_ app] in Hloop.
  destruct (Spec.convert_all TextStyle_new (dl_paints_ s) (Spec.all_styles metrics))
    as [styles | e].
  - rewrite Hloop. reflexivity.
  - destruct (for_each (convert_line TextStyle_new) metrics _)
      as [[u | e'] s1]; cbn in Hloop; [discriminate |].
    cbn. congruence.
Qed.

(** A call on a filled cache returns it and leaves the wrapper alone. *)
Lemma GetLineMetrics_cached (s : t P) (lines : list LineMetrics.t) :
  line_metrics_ s = Some lines ->
  GetLineMetrics TextStyle_new s = (Ok lines, s).
Proof.
  intros Hsome. unfold GetLineMetrics, bind, gets, ret.
  rewrite Hsome. cbn. rewrite Hsome. reflexivity.
Qed.

(** A call that returns leaves the cache filled with what it returned. *)
Lemma GetLineMetrics_fills (s s' : t P) (lines : list LineMetrics.t) :
  GetLineMetrics TextStyle_new s = (Ok lines, s') ->
  line_metrics_ s' = Some lines.
Proof.
  intros Hcall. destruct (line_metrics_ s) as [cached |] eqn:Hcache.
  - rewrite (GetLineMetrics_cached s cached Hcache) in Hcall.
    injection Hcall as <- <-. exact Hcache.
  - pose proof (GetLineMetrics_fresh s Hcache) as Hfresh. cbv zeta in Hfresh.
    destruct (Spec.convert_all TextStyle_new (dl_paints_ s)
                (Spec.all_styles (fst (skt.getLineMetrics (paragraph_ s)))))
      as [styles | e].
    + rewrite Hfresh in Hcall. injection Hcall as <- <-. reflexivity.
    + rewrite Hcall in Hfresh. discriminate.
Qed.

End WithParagraph.
End CacheFacts.

(** *** Runs point inside the store *)

Lemma map_emplace_Forall {V} (Q : Z * V -> Prop) (k : Z) (v : V)
    (m : list (Z * V)) :
  Q (k, v) -> Forall Q m -> Forall Q (map_emplace k v m).
Proof.
  intros Hnew. induction m as [| [k' v'] m' IH]; cbn; intros Hall.
  - constructor; [exact Hnew | constructor].
  - destruct (k <? k'); [constructor; assumption |].
    destruct (k =? k'); [exact Hall |].
    inversion Hall; subst. constructor; [assumption | apply IH; assumption].
Qed.

Lemma expected_runs_bound (bound : nat)
    (runs : list (Z * skt.StyleMetrics)) :
  forall (base : nat) (txtm : LineMetrics.t),
    (base + List.length runs <= bound)%nat ->
    Forall (fun run => (RunMetrics.text_style (snd run) < bound)%nat)
      (LineMetrics.run_metrics txtm) ->
    Forall (fun run => (RunMetrics.text_style (snd run) < bound)%nat)
      (LineMetrics.run_metrics (Spec.expected_runs base runs txtm)).
Proof.
  induction runs as [| sk_iter rest IH]; cbn [Spec.expected_runs List.length];
    intros base txtm Hbound Hall.
  - exact Hall.
  - apply IH; [lia |]. cbn [LineMetrics.emplace_run LineMetrics.run_metrics].
    apply map_emplace_Forall; [cbn; lia | exact Hall].
Qed.

Lemma expected_lines_bound (bound : nat) (metrics : list skt.LineMetrics) :
  forall base : nat,
    (base + List.length (Spec.all_styles metrics) <= bound)%nat ->
    Forall
      (fun txtm =>
         Forall (fun run => (RunMetrics.text_style (snd run) < bound)%nat)
           (LineMetrics.run_metrics txtm))
      (Spec.expected_lines base metrics).
Proof.
  induction metrics as [| skm rest IH];
    cbn [Spec.expected_lines Spec.all_styles flat_map]; intros base Hbound.
  - constructor.
  - rewrite length_app in Hbound. unfold Spec.line_styles in Hbound.
    rewrite length_map in Hbound.
    constructor.
    + apply expected_runs_bound; [lia | constructor].
    + apply IH. unfold Spec.all_styles, Spec.line_styles. lia.
Qed.

(* ================================================================== *)
(** ** The wrapper *)

(** C6: each of the seven geometry queries returns the paragraph's value
    for it, converted by [SkScalarToDouble], and gives back the wrapper it
    was called on; the conversion of a binary32 datum is exact. *)
Theorem geometry_queries_pass_through {P : Type}
    {paragraph_class : skt.Paragraph P} (s : ParagraphSkia.t P) :
  let p := ParagraphSkia.paragraph_ s in
  ParagraphSkia.GetMaxWidth s
  = (Ok (SkScalarToDouble (skt.getMaxWidth p)), s)
  /\ ParagraphSkia.GetHeight s
     = (Ok (SkScalarToDouble (skt.getHeight p)), s)
  /\ ParagraphSkia.GetLongestLine s
     = (Ok (SkScalarToDouble (skt.getLongestLine p)), s)
  /\ ParagraphSkia.GetMinIntrinsicWidth s
     = (Ok (SkScalarToDouble (skt.getMinIntrinsicWidth p)), s)
  /\ ParagraphSkia.GetMaxIntrinsicWidth s
     = (Ok (SkScalarToDouble (skt.getMaxIntrinsicWidth p)), s)
  /\ ParagraphSkia.GetAlphabeticBaseline s
     = (Ok (SkScalarToDouble (skt.getAlphabeticBaseline p)), s)
  /\ ParagraphSkia.GetIdeographicBaseline s
     = (Ok (SkScalarToDouble (skt.getIdeographicBaseline p)), s)
  /\ forall x : SkScalar,
       Spec.is_binary32 x = true ->
       Spec.same_value x (SkScalarToDouble x)
       /\ Spec.is_binary64 (SkScalarToDouble x) = true.
Proof.
  cbv zeta. do 7 (split; [reflexivity |]).
  exact SkScalarToDouble_exact.
Qed.

Lemma geometry_queries_pass_through_witness :
  ParagraphSkia.GetMaxWidth Sample.wrapper
  = (Ok (S754_finite false 4503599627370496 (-52)), Sample.wrapper)
  /\ Spec.same_value Sample.one (S754_finite false 4503599627370496 (-52)).
Proof.
  destruct (geometry_queries_pass_through Sample.wrapper)
    as [Hwidth [_ [_ [_ [_ [_ [_ Hexact]]]]]]].
  split.
  - rewrite Hwidth. reflexivity.
  - exact (proj1 (Hexact Sample.one eq_refl)).
Defined.

(** C4, as amended: the painter's two palette accesses are behind a debug
    check: in a debug build an index outside the palette stops
    [drawRect] and [drawTextBlob] at the check, before the access and
    before any command; in another build the access itself runs outside
    the palette.  With every index inside the palette, neither the
    painter's accesses nor those of [SkiaToTxt] leave it. *)
Theorem palette_access_contract (mode : BuildMode) {P : Type}
    (TextStyle_new : TextStyle.t) (s : DisplayListParagraphPainter.t)
    (w : ParagraphSkia.t P) (id : skt.PaintID) (rect : SkRect)
    (blob : SkTextBlob) (x y : SkScalar) (skia : skt.TextStyle.t) :
  (~ to_size_t id < vec_size (DisplayListParagraphPainter.dl_paints_ s) ->
   let failure := if debug_build then dcheck_failed else out_of_range in
   DisplayListParagraphPainter.drawRect rect (skt.ofPaintID id) s
   = (Fail failure, s)
   /\ DisplayListParagraphPainter.drawTextBlob (Some blob) x y
        (skt.ofPaintID id) s
      = (Fail failure, s))
  /\ (to_size_t id < vec_size (DisplayListParagraphPainter.dl_paints_ s) ->
      fst (DisplayListParagraphPainter.drawRect rect (skt.ofPaintID id) s)
      = Ok tt
      /\ fst (DisplayListParagraphPainter.drawTextBlob (Some blob) x y
                (skt.ofPaintID id) s)
         = Ok tt)
  /\ (Spec.style_in_bounds (ParagraphSkia.dl_paints_ w) skia = true ->
      exists style,
        ParagraphSkia.SkiaToTxt TextStyle_new skia w = (Ok style, w)).
Proof.
  split; [| split].
  - intros Hout. cbv zeta. destruct debug_build eqn:Hmode.
    + split.
      * apply PainterFacts.drawRect_checked; assumption.
      * apply PainterFacts.drawTextBlob_checked; assumption.
    + unfold DisplayListParagraphPainter.drawRect,
        DisplayListParagraphPainter.drawTextBlob, bind, lift, gets,
        FML_DCHECK.
      cbn. rewrite Hmode. cbn.
      rewrite (vec_at_out_of_bounds _ _ Hout). split; reflexivity.
  - intros Hin.
    destruct (painter_reissues_indexed_paint_core mode s id rect blob x y Hin)
      as [dl_paint [Hrect Hblob]].
    rewrite Hrect, Hblob. split; reflexivity.
  - intros Hin. rewrite ConverterFacts.SkiaToTxt_converted.
    destruct (ConverterFacts.converted_in_bounds TextStyle_new _ _ Hin)
      as [style ->].
    exists style. reflexivity.
Qed.

Lemma palette_access_contract_witness :
  @DisplayListParagraphPainter.drawRect Sample.debug Sample.unit_rect
    (skt.ofPaintID 5) Sample.painter
  = (Fail dcheck_failed, Sample.painter)
  /\ fst (@DisplayListParagraphPainter.drawRect Sample.debug
            Sample.unit_rect (skt.ofPaintID 1) Sample.painter)
     = Ok tt
  /\ exists style,
       ParagraphSkia.SkiaToTxt Sample.text_style_new (Sample.style 1)
         Sample.wrapper
       = (Ok style, Sample.wrapper).
Proof.
  split; [| split].
  - apply (proj1 (palette_access_contract Sample.debug
                    Sample.text_style_new Sample.painter Sample.wrapper 5
                    Sample.unit_rect Sample.blob Sample.one Sample.one
                    (Sample.style 1))).
    vm_compute. discriminate.
  - apply (proj1 (proj2 (palette_access_contract Sample.debug
                    Sample.text_style_new Sample.painter Sample.wrapper 1
                    Sample.unit_rect Sample.blob Sample.one Sample.one
                    (Sample.style 1)))).
    vm_compute. reflexivity.
  - apply (proj2 (proj2 (palette_access_contract Sample.debug
                    Sample.text_style_new Sample.painter Sample.wrapper 1
                    Sample.unit_rect Sample.blob Sample.one Sample.one
                    (Sample.style 1)))).
    vm_compute. reflexivity.
Defined.

(** With the index 5 and a palette of two paints, [SkiaToTxt] reads
    outside the palette, and no check stops it; the painter, in a debug
    build, stops at its check for the same index. *)
Lemma SkiaToTxt_access_unchecked :
  fst (ParagraphSkia.SkiaToTxt Sample.text_style_new (Sample.style 5)
         Sample.wrapper)
  = Fail out_of_range
  /\ fst (ParagraphSkia.SkiaToTxt Sample.text_style_new (Sample.style 5)
            Sample.wrapper)
     <> Fail dcheck_failed
  /\ fst (@DisplayListParagraphPainter.drawRect Sample.debug
            Sample.unit_rect (skt.ofPaintID 5) Sample.painter)
     = Fail dcheck_failed.
Proof.
  split; [vm_compute; reflexivity |].
  split; [vm_compute; discriminate | vm_compute; reflexivity].
Qed.

Lemma SkiaToTxt_pure_deterministic_witness :
  fst (ParagraphSkia.SkiaToTxt Sample.text_style_new (Sample.style 1)
         Sample.wrapper)
  = fst (ParagraphSkia.SkiaToTxt Sample.text_style_new (Sample.style 1)
           (ParagraphSkia.new tt Sample.palette))
  /\ snd (ParagraphSkia.SkiaToTxt Sample.text_style_new (Sample.style 1)
            Sample.wrapper)
     = Sample.wrapper.
Proof.
  destruct (SkiaToTxt_pure_deterministic Sample.text_style_new
              (Sample.style 1) (Sample.style 1) Sample.wrapper
              (ParagraphSkia.new tt Sample.palette) eq_refl eq_refl)
    as [Hresult [Hstate _]].
  split; assumption.
Defined.

(** C7: the cache is empty after construction and after [Layout]; a call
    of [GetLineMetrics] on an empty cache asks the paragraph once and
    leaves the cache filled with what it returns; a call on a filled cache
    returns the cached lines and gives back the wrapper untouched, so the
    paragraph is not asked again; and two calls in a row are one call. *)
Theorem GetLineMetrics_memoized {P : Type}
    {paragraph_class : skt.Paragraph P} (TextStyle_new : TextStyle.t) :
  (forall (paragraph : P) (dl_paints : list DlPaint.t),
      ParagraphSkia.line_metrics_ (ParagraphSkia.new paragraph dl_paints)
      = None)
  /\ (forall (s : ParagraphSkia.t P) (width : double),
        ParagraphSkia.line_metrics_ (snd (ParagraphSkia.Layout width s))
        = None)
  /\ (forall s : ParagraphSkia.t P,
        ParagraphSkia.line_metrics_ s = None ->
        Spec.metrics_in_bounds (ParagraphSkia.dl_paints_ s)
          (fst (skt.getLineMetrics (ParagraphSkia.paragraph_ s))) = true ->
        exists lines s',
          ParagraphSkia.GetLineMetrics TextStyle_new s = (Ok lines, s')
          /\ ParagraphSkia.paragraph_ s'
             = snd (skt.getLineMetrics (ParagraphSkia.paragraph_ s))
          /\ ParagraphSkia.line_metrics_ s' = Some lines
          /\ lines
             = Spec.expected_lines
                 (List.length (ParagraphSkia.line_metrics_styles_ s))
                 (fst (skt.getLineMetrics (ParagraphSkia.paragraph_ s)))
          /\ ParagraphSkia.GetLineMetrics TextStyle_new s' = (Ok lines, s'))
  /\ (forall (s : ParagraphSkia.t P) (lines : list LineMetrics.t),
        ParagraphSkia.line_metrics_ s = Some lines ->
        ParagraphSkia.GetLineMetrics TextStyle_new s = (Ok lines, s))
  /\ (forall s : ParagraphSkia.t P,
        bind (ParagraphSkia.GetLineMetrics TextStyle_new)
          (fun _ => ParagraphSkia.GetLineMetrics TextStyle_new) s
        = ParagraphSkia.GetLineMetrics TextStyle_new s).
Proof.
  split; [reflexivity |]. split; [reflexivity |].
  split; [| split].
  - intros s Hnone Hin.
    pose proof (CacheFacts.GetLineMetrics_fresh TextStyle_new s Hnone)
      as Hfresh.
    cbv zeta in Hfresh.
    destruct (ConverterFacts.convert_all_in_bounds TextStyle_new _ _ Hin)
      as [styles Hstyles].
    rewrite Hstyles in Hfresh.
    eexists. eexists. split; [exact Hfresh |].
    split; [reflexivity |]. split; [reflexivity |]. split; [reflexivity |].
    apply CacheFacts.GetLineMetrics_cached. reflexivity.
  - apply CacheFacts.GetLineMetrics_cached.
  - intros s. unfold bind.
    destruct (ParagraphSkia.GetLineMetrics TextStyle_new s)
      as [[lines | e] s'] eqn:Hfirst; [| reflexivity].
    apply CacheFacts.GetLineMetrics_cached.
    exact (CacheFacts.GetLineMetrics_fills TextStyle_new s s' lines Hfirst).
Qed.

Lemma GetLineMetrics_memoized_witness :
  exists lines s',
    ParagraphSkia.GetLineMetrics Sample.text_style_new Sample.wrapper
    = (Ok lines, s')
    /\ ParagraphSkia.GetLineMetrics Sample.text_style_new s' = (Ok lines, s')
    /\ List.length lines = 2%nat
    /\ CountingParagraph.queries (ParagraphSkia.paragraph_ s') = 1%nat.
Proof.
  assert (Hin : Spec.metrics_in_bounds
                  (ParagraphSkia.dl_paints_ Sample.wrapper)
                  (fst (skt.getLineMetrics
                          (ParagraphSkia.paragraph_ Sample.wrapper)))
                = true) by (vm_compute; reflexivity).
  destruct (proj1 (proj2 (proj2
              (GetLineMetrics_memoized Sample.text_style_new)))
              Sample.wrapper eq_refl Hin)
    as [lines [s' [Hfirst [Hasked [_ [Hlines Hsecond]]]]]].
  exists lines, s'.
  split; [exact Hfirst |]. split; [exact Hsecond |].
  split; [rewrite Hlines; vm_compute; reflexivity |].
  rewrite Hasked. vm_compute. reflexivity.
Defined.

(** Every member function that returns leaves the cache and the store
    both as they were, or both empty, or, called on an empty cache, both
    built from the paragraph's metrics. *)
Lemma call_moves_both (mode : BuildMode) {P : Type}
    {paragraph_class : skt.Paragraph P} (TextStyle_new : TextStyle.t)
    (m : ParagraphSkia.method) (s s' : ParagraphSkia.t P)
    (r : ParagraphSkia.result) :
  ParagraphSkia.call TextStyle_new m s = (Ok r, s') ->
  (ParagraphSkia.line_metrics_ s' = ParagraphSkia.line_metrics_ s
   /\ ParagraphSkia.line_metrics_styles_ s'
      = ParagraphSkia.line_metrics_styles_ s)
  \/ (ParagraphSkia.line_metrics_ s' = None
      /\ ParagraphSkia.line_metrics_styles_ s' = [])
  \/ (ParagraphSkia.line_metrics_ s = None
      /\ exists styles,
           Spec.convert_all TextStyle_new (ParagraphSkia.dl_paints_ s)
             (Spec.all_styles
                (fst (skt.getLineMetrics (ParagraphSkia.paragraph_ s))))
           = Ok styles
           /\ ParagraphSkia.line_metrics_ s'
              = Some (Spec.expected_lines
                        (List.length (ParagraphSkia.line_metrics_styles_ s))
                        (fst (skt.getLineMetrics
                                (ParagraphSkia.paragraph_ s))))
           /\ ParagraphSkia.line_metrics_styles_ s'
              = ParagraphSkia.line_metrics_styles_ s ++ styles).
Proof.
  intros Hcall. destruct m.
  1-3, 5-9:
    cbn in Hcall; injection Hcall as <- <-; left; split; reflexivity.
  - (* GetLineMetrics *)
    cbn [ParagraphSkia.call] in Hcall. unfold bind at 1 in Hcall.
    destruct (ParagraphSkia.GetLineMetrics TextStyle_new s)
      as [[lines | e] s1] eqn:Hget; [| discriminate].
    cbn in Hcall. injection Hcall as <- <-.
    destruct (ParagraphSkia.line_metrics_ s) as [cached |] eqn:Hcache.
    + rewrite (CacheFacts.GetLineMetrics_cached TextStyle_new s cached Hcache)
        in Hget.
      injection Hget as <- <-. left. split; [exact Hcache | reflexivity].
    + right. right. split; [reflexivity |].
      pose proof (CacheFacts.GetLineMetrics_fresh TextStyle_new s Hcache)
        as Hfresh.
      cbv zeta in Hfresh.
      destruct (Spec.convert_all TextStyle_new (ParagraphSkia.dl_paints_ s)
                  (Spec.all_styles
                     (fst (skt.getLineMetrics (ParagraphSkia.paragraph_ s)))))
        as [styles | e].
      * rewrite Hfresh in Hget. injection Hget as <- <-.
        exists styles. repeat split.
      * rewrite Hget in Hfresh. discriminate.
  - (* Layout *)
    cbn in Hcall. injection Hcall as <- <-. right. left. split; reflexivity.
  - (* Paint *)
    cbn [ParagraphSkia.call] in Hcall. unfold ParagraphSkia.Paint in Hcall.
    destruct (skt.paint (DoubleToSkScalar x) (DoubleToSkScalar y)
                (ParagraphSkia.paragraph_ s)) as [calls p].
    destruct (for_each DisplayListParagraphPainter.dispatch calls _)
      as [[u | e] painter']; [| discriminate].
    injection Hcall as <- <-. left. split; reflexivity.
  - (* GetRectsForRange *)
    cbn [ParagraphSkia.call] in Hcall.
    unfold ParagraphSkia.GetRectsForRange, bind, ParagraphSkia.on_paragraph,
      ret in Hcall.
    destruct (skt.getRectsForRange _ _ _ _ _) as [boxes p].
    injection Hcall as <- <-. left. split; reflexivity.
  - (* GetRectsForPlaceholders *)
    cbn [ParagraphSkia.call] in Hcall.
    unfold ParagraphSkia.GetRectsForPlaceholders, bind,
      ParagraphSkia.on_paragraph, ret in Hcall.
    destruct (skt.getRectsForPlaceholders _) as [boxes p].
    injection Hcall as <- <-. left. split; reflexivity.
  - (* GetGlyphPositionAtCoordinate *)
    cbn [ParagraphSkia.call] in Hcall.
    unfold ParagraphSkia.GetGlyphPositionAtCoordinate, bind,
      ParagraphSkia.on_paragraph, ret in Hcall.
    destruct (skt.getGlyphPositionAtCoordinate _ _ _) as [pos p].
    injection Hcall as <- <-. left. split; reflexivity.
  - (* GetWordBoundary *)
    cbn [ParagraphSkia.call] in Hcall.
    unfold ParagraphSkia.GetWordBoundary, bind, ParagraphSkia.on_paragraph,
      ret in Hcall.
    destruct (skt.getWordBoundary _ _) as [range p].
    injection Hcall as <- <-. left. split; reflexivity.
Qed.

Lemma call_keeps_consistent (mode : BuildMode) {P : Type}
    {paragraph_class : skt.Paragraph P} (TextStyle_new : TextStyle.t)
    (m : ParagraphSkia.method) (s s' : ParagraphSkia.t P)
    (r : ParagraphSkia.result) :
  Spec.cache_consistent s ->
  ParagraphSkia.call TextStyle_new m s = (Ok r, s') ->
  Spec.cache_consistent s'.
Proof.
  intros Hinv Hcall. unfold Spec.cache_consistent in *.
  destruct (call_moves_both mode TextStyle_new m s s' r Hcall)
    as [[Hcache Hstore] | [[Hcache Hstore] | [Hnone [styles [Hconv
         [Hcache Hstore]]]]]].
  - rewrite Hcache, Hstore. exact Hinv.
  - rewrite Hcache. exact Hstore.
  - rewrite Hcache, Hstore. rewrite Hnone in Hinv. rewrite Hinv. cbn.
    apply expected_lines_bound.
    rewrite (ConverterFacts.convert_all_length _ _ _ _ Hconv). lia.
Qed.

(** C1: [Layout] empties the cache and the store in one operation; the
    call of [GetLineMetrics] that follows builds both anew, from the
    metrics of the relaid paragraph and the palette alone; every member
    function that returns leaves the two both untouched, both empty, or
    both built; and so the two stay in step from the constructor on. *)
Theorem cache_and_store_move_together (mode : BuildMode) {P : Type}
    {paragraph_class : skt.Paragraph P} (TextStyle_new : TextStyle.t) :
  (forall (s : ParagraphSkia.t P) (width : double),
      fst (ParagraphSkia.Layout width s) = Ok tt
      /\ ParagraphSkia.line_metrics_ (snd (ParagraphSkia.Layout width s))
         = None
      /\ ParagraphSkia.line_metrics_styles_
           (snd (ParagraphSkia.Layout width s))
         = [])
  /\ (forall (s : ParagraphSkia.t P) (width : double),
        let s0 := snd (ParagraphSkia.Layout width s) in
        let metrics :=
          fst (skt.getLineMetrics (ParagraphSkia.paragraph_ s0)) in
        Spec.metrics_in_bounds (ParagraphSkia.dl_paints_ s) metrics = true ->
        exists styles,
          Spec.convert_all TextStyle_new (ParagraphSkia.dl_paints_ s)
            (Spec.all_styles metrics)
          = Ok styles
          /\ ParagraphSkia.GetLineMetrics TextStyle_new s0
             = (Ok (Spec.expected_lines 0 metrics),
                {| ParagraphSkia.paragraph_ :=
                     snd (skt.getLineMetrics (ParagraphSkia.paragraph_ s0));
                   ParagraphSkia.dl_paints_ := ParagraphSkia.dl_paints_ s;
                   ParagraphSkia.line_metrics_ :=
                     Some (Spec.expected_lines 0 metrics);
                   ParagraphSkia.line_metrics_styles_ := styles |}))
  /\ (forall (m : ParagraphSkia.method) (s s' : ParagraphSkia.t P)
        (r : ParagraphSkia.result),
        ParagraphSkia.call TextStyle_new m s = (Ok r, s') ->
        (ParagraphSkia.line_metrics_ s' = ParagraphSkia.line_metrics_ s
         /\ ParagraphSkia.line_metrics_styles_ s'
            = ParagraphSkia.line_metrics_styles_ s)
        \/ (ParagraphSkia.line_metrics_ s' = None
            /\ ParagraphSkia.line_metrics_styles_ s' = [])
        \/ (ParagraphSkia.line_metrics_ s = None
            /\ exists styles,
                 Spec.convert_all TextStyle_new (ParagraphSkia.dl_paints_ s)
                   (Spec.all_styles
                      (fst (skt.getLineMetrics
                              (ParagraphSkia.paragraph_ s))))
                 = Ok styles
                 /\ ParagraphSkia.line_metrics_ s'
                    = Some (Spec.expected_lines
                              (List.length
                                 (ParagraphSkia.line_metrics_styles_ s))
                              (fst (skt.getLineMetrics
                                      (ParagraphSkia.paragraph_ s))))
                 /\ ParagraphSkia.line_metrics_styles_ s'
                    = ParagraphSkia.line_metrics_styles_ s ++ styles))
  /\ (forall (paragraph : P) (dl_paints : list DlPaint.t),
        Spec.cache_consistent (ParagraphSkia.new paragraph dl_paints))
  /\ (forall (m : ParagraphSkia.method) (s s' : ParagraphSkia.t P)
        (r : ParagraphSkia.result),
        Spec.cache_consistent s ->
        ParagraphSkia.call TextStyle_new m s = (Ok r, s') ->
        Spec.cache_consistent s').
Proof.
  split; [intros s width; repeat split |].
  split.
  { intros s width s0 metrics Hin.
    destruct (ConverterFacts.convert_all_in_bounds TextStyle_new _ _ Hin)
      as [styles Hstyles].
    exists styles. split; [exact Hstyles |].
    pose proof (CacheFacts.GetLineMetrics_fresh TextStyle_new s0 eq_refl)
      as Hfresh.
    cbv zeta in Hfresh. fold metrics in Hfresh.
    change (ParagraphSkia.dl_paints_ s0) with (ParagraphSkia.dl_paints_ s)
      in Hfresh.
    rewrite Hstyles in Hfresh. exact Hfresh. }
  split; [apply call_moves_both; exact mode |].
  split; [intros paragraph dl_paints; reflexivity |].
  apply call_keeps_consistent; exact mode.
Qed.

Lemma cache_and_store_move_together_witness :
  exists lines s',
    ParagraphSkia.GetLineMetrics Sample.text_style_new
      (snd (ParagraphSkia.Layout Sample.one Sample.wrapper))
    = (Ok lines, s')
    /\ ParagraphSkia.line_metrics_ s' = Some lines
    /\ List.length lines = 2%nat
    /\ List.length (ParagraphSkia.line_metrics_styles_ s') = 3%nat
    /\ Spec.cache_consistent s'.
Proof.
  pose proof (cache_and_store_move_together Sample.debug
                (P := CountingParagraph.t) Sample.text_style_new)
    as [_ [Hbuild [_ [Hnew Hkeep]]]].
  assert (Hin : Spec.metrics_in_bounds
                  (ParagraphSkia.dl_paints_ Sample.wrapper)
                  (fst (skt.getLineMetrics
                          (ParagraphSkia.paragraph_
                             (snd (ParagraphSkia.Layout Sample.one
                                     Sample.wrapper)))))
                = true) by (vm_compute; reflexivity).
  destruct (Hbuild Sample.wrapper Sample.one Hin) as [styles [Hstyles Hget]].
  eexists. eexists. split; [exact Hget |].
  split; [reflexivity |]. split; [vm_compute; reflexivity |].
  split.
  - cbn [ParagraphSkia.line_metrics_styles_].
    rewrite (ConverterFacts.convert_all_length _ _ _ _ Hstyles).
    vm_compute. reflexivity.
  - apply (Hkeep ParagraphSkia.mGetLineMetrics
             (snd (ParagraphSkia.Layout Sample.one Sample.wrapper)) _
             (ParagraphSkia.rLineMetrics
                (Spec.expected_lines 0
                   (fst (skt.getLineMetrics
                           (ParagraphSkia.paragraph_
                              (snd (ParagraphSkia.Layout Sample.one
                                      Sample.wrapper)))))))).
    + vm_compute. reflexivity.
    + cbn [ParagraphSkia.call]. unfold bind at 1. rewrite Hget. reflexivity.
Defined.

(* ================================================================== *)
(** * Further properties *)

(** ** Font weight *)

Lemma std_clamp_bounds (v lo hi : Z) :
  lo <= hi -> lo <= std_clamp v lo hi <= hi.
Proof.
  intros Hle. unfold std_clamp.
  destruct (Z.ltb_spec v lo); [lia |].
  destruct (Z.ltb_spec hi v); lia.
Qed.

Lemma std_clamp_monotone (a b lo hi : Z) :
  lo <= hi -> a <= b -> std_clamp a lo hi <= std_clamp b lo hi.
Proof.
  intros Hle Hab. unfold std_clamp.
  destruct (Z.ltb_spec a lo), (Z.ltb_spec b lo); try lia;
    destruct (Z.ltb_spec hi a), (Z.ltb_spec hi b); lia.
Qed.

(** X1: whatever [int] comes in, also one on which the subtraction wraps
    around, the result is one of the nine enumerators [w100] .. [w900]. *)
Theorem GetTxtFontWeight_named (font_weight : Z) :
  0 <= int_of_FontWeight (GetTxtFontWeight font_weight) <= 8
  /\ In (GetTxtFontWeight font_weight) Behaviour.named_weights.
Proof.
  unfold GetTxtFontWeight. cbn [int_of_FontWeight w100 w900].
  pose proof (std_clamp_bounds (int_div (int_sub font_weight 100) 100) 0 8
                ltac:(lia)) as Hb.
  split; [exact Hb |].
  set (k := std_clamp (int_div (int_sub font_weight 100) 100) 0 8) in *.
  assert (Hk : k = 0 \/ k = 1 \/ k = 2 \/ k = 3 \/ k = 4 \/ k = 5 \/ k = 6
               \/ k = 7 \/ k = 8) by lia.
  unfold Behaviour.named_weights, w100, w200, w300, w400, w500, w600, w700,
    w800, w900.
  cbn [In].
  repeat (destruct Hk as [-> | Hk]; [tauto |]). subst k. rewrite Hk. tauto.
Qed.

(** X2: where the subtraction does not overflow, a heavier weight never
    gets a lighter enumerator. *)
Theorem GetTxtFontWeight_monotone (a b : Z) :
  int_min + 100 <= a -> a <= b -> b <= int_max ->
  int_of_FontWeight (GetTxtFontWeight a)
  <= int_of_FontWeight (GetTxtFontWeight b).
Proof.
  intros Ha Hab Hb.
  rewrite !GetTxtFontWeight_formula by lia. cbn [int_of_FontWeight].
  apply std_clamp_monotone; [lia |].
  apply Z.quot_le_mono; lia.
Qed.

Lemma GetTxtFontWeight_monotone_witness :
  int_of_FontWeight (GetTxtFontWeight 350)
  <= int_of_FontWeight (GetTxtFontWeight 720).
Proof.
  apply (GetTxtFontWeight_monotone 350 720);
    unfold int_min, int_max; lia.
Defined.

(** ** Narrowing a double *)

Lemma iter_pos_swap {A} (f : A -> A) (n : positive) :
  forall x, iter_pos f n (f x) = f (iter_pos f n x).
Proof.
  induction n as [n IH | n IH |]; intros x; cbn.
  - rewrite !IH. reflexivity.
  - rewrite !IH. reflexivity.
  - reflexivity.
Qed.

Lemma iter_pos_is_iter {A} (f : A -> A) (n : positive) :
  forall x, iter_pos f n x = Pos.iter f x n.
Proof.
  induction n as [n IH | n IH |]; intros x; cbn.
  - rewrite (iter_pos_swap f n x), (iter_pos_swap f n), !IH. reflexivity.
  - rewrite !IH. reflexivity.
  - reflexivity.
Qed.

(** Shifting right by [d] gives back the mantissa that was shifted left by
    [d], and reports nothing lost. *)
Lemma shr_undoes_shift (m d : positive) :
  iter_pos shr_1 d
    {| shr_m := Zpos (Pos.iter xO m d); shr_r := false; shr_s := false |}
  = {| shr_m := Zpos m; shr_r := false; shr_s := false |}.
Proof.
  rewrite iter_pos_is_iter.
  induction d as [| d IH] using Pos.peano_ind.
  - reflexivity.
  - rewrite Pos.iter_succ_r. rewrite Pos.iter_succ. cbn [shr_1 orb]. exact IH.
Qed.

Lemma DoubleToSkScalar_widened (s : bool) (m d : positive) (e : Z) :
  bounded 24 128 m e = true ->
  DoubleToSkScalar (S754_finite s (Pos.iter xO m d) (e - Zpos d))
  = S754_finite s m e.
Proof.
  unfold bounded, canonical_mantissa. intros Hb.
  apply andb_true_iff in Hb. destruct Hb as [Hcanon Hmax].
  apply Z.eqb_eq in Hcanon. apply Z.leb_le in Hmax.
  assert (Hround : binary_round 24 128 s (Pos.iter xO m d) (e - Zpos d)
                   = S754_finite s m e).
  { unfold binary_round, shl_align.
    rewrite digits2_pos_iter_xO.
    replace (Zpos (digits2_pos m) + Zpos d + (e - Zpos d))
      with (Zpos (digits2_pos m) + e) by lia.
    rewrite Hcanon.
    replace (e - (e - Zpos d)) with (Zpos d) by lia.
    unfold binary_round_aux, shr_fexp. cbn [Zdigits2 shr_record_of_loc].
    rewrite digits2_pos_iter_xO.
    replace (Zpos (digits2_pos m) + Zpos d + (e - Zpos d))
      with (Zpos (digits2_pos m) + e) by lia.
    rewrite Hcanon.
    replace (e - (e - Zpos d)) with (Zpos d) by lia.
    cbn [shr]. rewrite shr_undoes_shift.
    cbn [shr_m loc_of_shr_record round_nearest_even Zdigits2
           shr_record_of_loc].
    replace (e - Zpos d + Zpos d) with e by lia.
    rewrite Hcanon, Z.sub_diag. cbn [shr shr_m].
    replace (e <=? 128 - 24) with true by (symmetry; apply Z.leb_le; lia).
    reflexivity. }
  unfold DoubleToSkScalar. destruct s; exact Hround.
Qed.

Lemma narrowing_undoes_widening (x : SkScalar) :
  Spec.is_binary32 x = true ->
  DoubleToSkScalar (SkScalarToDouble x) = x.
Proof.
  unfold Spec.is_binary32.
  destruct x as [s | s | | s m e]; cbn [valid_binary]; intros Hb;
    try reflexivity.
  destruct (SkScalarToDouble_finite s m e Hb) as [d [-> _]].
  apply DoubleToSkScalar_widened. exact Hb.
Qed.

(* ================================================================== *)
(** ** The painter, callback by callback *)

Module PaintFacts.
Import DisplayListParagraphPainter.

Section WithBuildMode.
Context (mode : BuildMode).

(** What one callback does to the painter. *)
Lemma dispatch_step (c : skt.PainterCall) (s : t) :
  match dispatch c s with
  | (Ok _, s') =>
      exists l,
        s' = {| builder_ := builder_ s ++ l; dl_paints_ := dl_paints_ s |}
        /\ List.length l = (if Behaviour.draws c then 1 else 0)%nat
        /\ filter Behaviour.is_state_op l = Behaviour.state_ops_of_call c
  | (Fail e, s') =>
      s' = s
      /\ Behaviour.reads_palette c = true
      /\ Behaviour.painter_failure e
  end.
Proof.
  assert (Hnil : forall s : t,
             s = {| builder_ := builder_ s ++ []; dl_paints_ := dl_paints_ s |}).
  { intros [b p]. cbn. rewrite app_nil_r. reflexivity. }
  unfold Behaviour.painter_failure.
  destruct c as [blob x y paint | blob x y color blur | rect paint
                | rect d | path d | x0 y0 x1 y1 d | rect | dx dy | |];
    cbn [dispatch].
  - destruct blob as [b |]; cbn.
    + destruct paint as [p | id]; cbn; [repeat split; tauto |].
      unfold drawTextBlob, bind, lift, gets, FML_DCHECK. cbn.
      destruct (debug_build && negb (to_size_t id <? vec_size (dl_paints_ s)));
        cbn; [repeat split; tauto |].
      destruct (vec_at (dl_paints_ s) (to_size_t id)) as [dl | e] eqn:Hat; cbn.
      * eexists. repeat split.
      * repeat split. unfold vec_at in Hat.
        destruct (to_size_t id <? 0);
          [injection Hat as <-; tauto |].
        destruct (nth_error (dl_paints_ s) (Z.to_nat (to_size_t id)));
          [discriminate | injection Hat as <-; tauto].
    + exists []. repeat split. apply Hnil.
  - destruct blob as [b |]; cbn.
    + eexists. repeat split.
    + exists []. repeat split. apply Hnil.
  - destruct paint as [p | id]; cbn; [repeat split; tauto |].
    unfold drawRect, bind, lift, gets, FML_DCHECK. cbn.
    destruct (debug_build && negb (to_size_t id <? vec_size (dl_paints_ s)));
      cbn; [repeat split; tauto |].
    destruct (vec_at (dl_paints_ s) (to_size_t id)) as [dl | e] eqn:Hat; cbn.
    * eexists. repeat split.
    * repeat split. unfold vec_at in Hat.
      destruct (to_size_t id <? 0);
        [injection Hat as <-; tauto |].
      destruct (nth_error (dl_paints_ s) (Z.to_nat (to_size_t id)));
        [discriminate | injection Hat as <-; tauto].
  - eexists. repeat split.
  - eexists. repeat split.
  - eexists. repeat split.
  - eexists. repeat split.
  - eexists. repeat split.
  - eexists. repeat split.
  - eexists. repeat split.
Qed.

(** What a sequence of callbacks does to the painter. *)
Lemma for_each_dispatch (calls : list skt.PainterCall) :
  forall s : t,
    exists l,
      snd (for_each dispatch calls s)
      = {| builder_ := builder_ s ++ l; dl_paints_ := dl_paints_ s |}
      /\ (List.length l <= Behaviour.drawn calls)%nat
      /\ (fst (for_each dispatch calls s) = Ok tt ->
          List.length l = Behaviour.drawn calls
          /\ filter Behaviour.is_state_op l
             = flat_map Behaviour.state_ops_of_call calls)
      /\ (forall e, fst (for_each dispatch calls s) = Fail e ->
                    Behaviour.painter_failure e).
Proof.
  induction calls as [| c rest IH]; intros s.
  - exists []. cbn. destruct s as [b p]. cbn. rewrite app_nil_r.
    repeat split; try lia. intros e He. discriminate.
  - cbn [for_each]. unfold bind.
    pose proof (dispatch_step c s) as Hstep.
    unfold Behaviour.drawn. cbn [filter].
    destruct (dispatch c s) as [[u | e] s1].
    + destruct Hstep as [l1 [-> [Hlen Hstate]]].
      destruct (IH {| builder_ := builder_ s ++ l1;
                      dl_paints_ := dl_paints_ s |})
        as [l2 [Hsnd [Hle [Hok Hfail]]]].
      cbn [builder_ dl_paints_] in Hsnd.
      exists (l1 ++ l2). rewrite Hsnd, app_assoc.
      split; [reflexivity |].
      unfold Behaviour.drawn in *.
      split; [| split].
      * rewrite length_app. destruct (Behaviour.draws c); cbn; lia.
      * intros Hall. destruct (Hok Hall) as [Hlen2 Hstate2].
        split.
        -- rewrite length_app. destruct (Behaviour.draws c); cbn; lia.
        -- cbn [flat_map]. rewrite filter_app, Hstate, Hstate2. reflexivity.
      * exact Hfail.
    + destruct Hstep as [-> [_ He]]. exists []. cbn.
      destruct s as [b p]. cbn. rewrite app_nil_r.
      split; [reflexivity |]. split; [lia |].
      split; [intros Hall; discriminate |].
      intros e' He'. injection He' as <-. exact He.
Qed.

End WithBuildMode.

(** A callback that returns in a debug build passed every check, so its
    indices are inside the palette and any build does the same. *)
Lemma dispatch_checked_agree (m1 m2 : BuildMode) (c : skt.PainterCall)
    (s s' : t) (u : unit) :
  @debug_build m1 = true ->
  @dispatch m1 c s = (Ok u, s') -> @dispatch m2 c s = (Ok u, s').
Proof.
  intros Hdebug.
  destruct c as [blob x y paint | blob x y color blur | rect paint
                | rect d | path d | x0 y0 x1 y1 d | rect | dx dy | |];
    cbn [dispatch]; try (intros Hrun; exact Hrun).
  - destruct blob as [b |]; [| intros Hrun; exact Hrun].
    destruct paint as [p | id]; [intros Hrun; exact Hrun |].
    unfold drawTextBlob, bind, lift, gets, FML_DCHECK. cbn.
    rewrite Hdebug.
    destruct (to_size_t id <? vec_size (dl_paints_ s)) eqn:Hin.
    + rewrite !andb_false_r. intros Hrun; exact Hrun.
    + cbn. discriminate.
  - destruct paint as [p | id]; [intros Hrun; exact Hrun |].
    unfold drawRect, bind, lift, gets, FML_DCHECK. cbn.
    rewrite Hdebug.
    destruct (to_size_t id <? vec_size (dl_paints_ s)) eqn:Hin.
    + rewrite !andb_false_r. intros Hrun; exact Hrun.
    + cbn. discriminate.
Qed.

End PaintFacts.

(** X3: a callback leaves the palette alone and the commands the builder
    already has in place; it adds one command, or none when its blob is
    null or when it fails. *)
Theorem painter_callback_appends (mode : BuildMode) (c : skt.PainterCall)
    (s : DisplayListParagraphPainter.t) :
  let r := DisplayListParagraphPainter.dispatch c s in
  DisplayListParagraphPainter.dl_paints_ (snd r)
  = DisplayListParagraphPainter.dl_paints_ s
  /\ exists l,
       DisplayListParagraphPainter.builder_ (snd r)
       = DisplayListParagraphPainter.builder_ s ++ l
       /\ List.length l
          = match fst r with
            | Ok _ => if Behaviour.draws c then 1%nat else 0%nat
            | Fail _ => 0%nat
            end.
Proof.
  cbv zeta. pose proof (PaintFacts.dispatch_step mode c s) as Hstep.
  destruct (DisplayListParagraphPainter.dispatch c s) as [[u | e] s'].
  - destruct Hstep as [l [-> [Hlen _]]]. cbn.
    split; [reflexivity |]. exists l. split; [reflexivity | exact Hlen].
  - destruct Hstep as [-> _]. cbn.
    split; [reflexivity |]. exists []. rewrite app_nil_r. split; reflexivity.
Qed.

(** X4: a callback that does not read the palette never fails; one that
    fails read the palette, failed at [std::get], at the debug check or at
    the access, and left the painter as it was. *)
Theorem painter_failure_sources (mode : BuildMode) (c : skt.PainterCall)
    (s : DisplayListParagraphPainter.t) :
  (Behaviour.reads_palette c = false ->
   fst (DisplayListParagraphPainter.dispatch c s) = Ok tt)
  /\ (forall e,
        fst (DisplayListParagraphPainter.dispatch c s) = Fail e ->
        Behaviour.reads_palette c = true
        /\ Behaviour.painter_failure e
        /\ snd (DisplayListParagraphPainter.dispatch c s) = s).
Proof.
  pose proof (PaintFacts.dispatch_step mode c s) as Hstep.
  destruct (DisplayListParagraphPainter.dispatch c s) as [[u | e] s'].
  - split; [intros _; destruct u; reflexivity | intros e He; discriminate].
  - destruct Hstep as [-> [Hreads He]]. cbn. split.
    + intros Hno. rewrite Hno in Hreads. discriminate.
    + intros e' He'. injection He' as <-. repeat split; assumption.
Qed.

Lemma painter_failure_sources_witness :
  fst (@DisplayListParagraphPainter.dispatch Sample.debug
         (skt.drawLine Sample.one Sample.one Sample.one Sample.one
            Sample.dashed) Sample.painter)
  = Ok tt
  /\ snd (@DisplayListParagraphPainter.dispatch Sample.debug
            (skt.drawRect Sample.unit_rect (skt.ofPaintID 5)) Sample.painter)
     = Sample.painter.
Proof.
  split.
  - apply (proj1 (painter_failure_sources Sample.debug
                    (skt.drawLine Sample.one Sample.one Sample.one
                       Sample.one Sample.dashed) Sample.painter)).
    reflexivity.
  - apply (proj2 (painter_failure_sources Sample.debug
                    (skt.drawRect Sample.unit_rect (skt.ofPaintID 5))
                    Sample.painter) dcheck_failed).
    vm_compute. reflexivity.
Defined.

(** X5: the debug checks change no run that passes them: a sequence of
    callbacks that returns in a debug build does the same, command for
    command, in any other build. *)
Theorem painter_build_modes_agree (m1 m2 : BuildMode)
    (calls : list skt.PainterCall) (s : DisplayListParagraphPainter.t) :
  @debug_build m1 = true ->
  fst (for_each (@DisplayListParagraphPainter.dispatch m1) calls s) = Ok tt ->
  for_each (@DisplayListParagraphPainter.dispatch m2) calls s
  = for_each (@DisplayListParagraphPainter.dispatch m1) calls s.
Proof.
  intros Hdebug. revert s.
  induction calls as [| c rest IH]; intros s; [reflexivity |].
  cbn [for_each]. unfold bind.
  destruct (@DisplayListParagraphPainter.dispatch m1 c s) as [[u | e] s1]
    eqn:Hstep; [| discriminate].
  rewrite (PaintFacts.dispatch_checked_agree m1 m2 c s s1 u Hdebug Hstep).
  apply IH.
Qed.

Lemma painter_build_modes_agree_witness :
  for_each (@DisplayListParagraphPainter.dispatch Sample.release)
    [skt.save; skt.drawRect Sample.unit_rect (skt.ofPaintID 1); skt.restore]
    Sample.painter
  = for_each (@DisplayListParagraphPainter.dispatch Sample.debug)
      [skt.save; skt.drawRect Sample.unit_rect (skt.ofPaintID 1);
       skt.restore]
      Sample.painter.
Proof.
  apply (painter_build_modes_agree Sample.debug Sample.release).
  - reflexivity.
  - vm_compute. reflexivity.
Defined.

(* ================================================================== *)
(** ** Painting *)

(** [Paint], whatever its outcome, written out. *)
Lemma Paint_run (mode : BuildMode) {P : Type}
    {paragraph_class : skt.Paragraph P} (x y : double)
    (s : ParagraphSkia.t P) (builder : DisplayListBuilder.t) :
  let painted :=
    skt.paint (DoubleToSkScalar x) (DoubleToSkScalar y)
      (ParagraphSkia.paragraph_ s) in
  let run :=
    for_each DisplayListParagraphPainter.dispatch (fst painted)
      {| DisplayListParagraphPainter.builder_ := builder;
         DisplayListParagraphPainter.dl_paints_ :=
           ParagraphSkia.dl_paints_ s |} in
  ParagraphSkia.Paint x y (s, builder)
  = (match fst run with Ok _ => Ok true | Fail e => Fail e end,
     (ParagraphSkia.set_paragraph_ (snd painted) s,
      DisplayListParagraphPainter.builder_ (snd run))).
Proof.
  cbv zeta. unfold ParagraphSkia.Paint.
  destruct (skt.paint (DoubleToSkScalar x) (DoubleToSkScalar y)
              (ParagraphSkia.paragraph_ s)) as [calls p].
  cbn [fst snd].
  destruct (for_each DisplayListParagraphPainter.dispatch calls _)
    as [[u | e] painter']; reflexivity.
Qed.



(** X7: when [Paint] returns, it returns [true], the builder has gained
    exactly one command per drawing callback, and the saves, restores,
    translations and clips among them are the paragraph's, in its order. *)
Theorem Paint_success (mode : BuildMode) {P : Type}
    {paragraph_class : skt.Paragraph P} (x y : double)
    (s : ParagraphSkia.t P) (builder : DisplayListBuilder.t) (ok : bool) :
  let calls :=
    fst (skt.paint (DoubleToSkScalar x) (DoubleToSkScalar y)
           (ParagraphSkia.paragraph_ s)) in
  fst (ParagraphSkia.Paint x y (s, builder)) = Ok ok ->
  ok = true
  /\ exists l,
       snd (snd (ParagraphSkia.Paint x y (s, builder))) = builder ++ l
       /\ List.length l = Behaviour.drawn calls
       /\ filter Behaviour.is_state_op l
          = flat_map Behaviour.state_ops_of_call calls.
Proof.
  cbv zeta. rewrite Paint_run. cbn [fst snd].
  destruct (PaintFacts.for_each_dispatch mode
              (fst (skt.paint (DoubleToSkScalar x) (DoubleToSkScalar y)
                      (ParagraphSkia.paragraph_ s)))
              {| DisplayListParagraphPainter.builder_ := builder;
                 DisplayListParagraphPainter.dl_paints_ :=
                   ParagraphSkia.dl_paints_ s |})
    as [l [Hsnd [_ [Hok _]]]].
  rewrite Hsnd. cbn [DisplayListParagraphPainter.builder_].
  destruct (fst (for_each DisplayListParagraphPainter.dispatch _ _))
    as [u | e]; [| discriminate].
  intros Hret. injection Hret as <-. split; [reflexivity |].
  destruct u. destruct (Hok eq_refl) as [Hlen Hstate].
  exists l. repeat split; assumption.
Qed.

Lemma Paint_success_witness :
  exists l,
    snd (snd (@ParagraphSkia.Paint Sample.release _ _ Sample.one Sample.one
                (MoreSamples.painting_wrapper, [])))
    = l
    /\ List.length l = 4%nat
    /\ filter Behaviour.is_state_op l
       = [DisplayListBuilder.Save;
          DisplayListBuilder.Translate Sample.one Sample.one;
          DisplayListBuilder.Restore].
Proof.
  assert (Hrun : fst (@ParagraphSkia.Paint Sample.release
                         CountingParagraph.t CountingParagraph.paragraph
                         Sample.one Sample.one
                         (MoreSamples.painting_wrapper, []))
                 = Ok true) by (vm_compute; reflexivity).
  destruct (Paint_success Sample.release Sample.one Sample.one
              MoreSamples.painting_wrapper [] true Hrun)
    as [_ [l [Hbuilder [Hlen Hstate]]]].
  exists l. split; [exact Hbuilder |].
  split; [rewrite Hlen; vm_compute; reflexivity |].
  rewrite Hstate. vm_compute. reflexivity.
Defined.

(* ================================================================== *)
(** ** The style converter, outcome by outcome *)

Lemma vec_at_outcome {A} (v : list A) (i : Z) :
  0 <= i ->
  match vec_at v i with
  | Ok a => nth_error v (Z.to_nat i) = Some a /\ (i <? vec_size v) = true
  | Fail e => e = out_of_range /\ (i <? vec_size v) = false
  end.
Proof.
  intros Hi. unfold vec_at, vec_size.
  destruct (Z.ltb_spec i 0) as [Hneg | _]; [lia |].
  destruct (nth_error v (Z.to_nat i)) as [a |] eqn:Hnth.
  - split; [reflexivity |]. apply Z.ltb_lt.
    assert (Z.to_nat i < List.length v)%nat
      by (apply nth_error_Some; rewrite Hnth; discriminate).
    lia.
  - split; [reflexivity |]. apply Z.ltb_ge.
    apply nth_error_None in Hnth. lia.
Qed.

Lemma c_str_no_nul (s : string) : Behaviour.no_nul (c_str s) = true.
Proof.
  induction s as [| c rest IH]; cbn; [reflexivity |].
  destruct (Ascii.eqb c Ascii.zero) eqn:Hc; cbn; [reflexivity |].
  rewrite Hc, IH. reflexivity.
Qed.

Lemma c_str_of_no_nul (s : string) : Behaviour.no_nul s = true -> c_str s = s.
Proof.
  induction s as [| c rest IH]; cbn; [reflexivity |].
  destruct (Ascii.eqb c Ascii.zero); cbn; [discriminate |].
  intros Hrest. rewrite (IH Hrest). reflexivity.
Qed.

Lemma c_str_cut (a b : string) :
  Behaviour.no_nul a = true ->
  c_str (a ++ String Ascii.zero b) = a.
Proof.
  induction a as [| c rest IH]; cbn; [reflexivity |].
  destruct (Ascii.eqb c Ascii.zero); cbn; [discriminate |].
  intros Hrest. rewrite (IH Hrest). reflexivity.
Qed.

Module ConverterMore.
Import ParagraphSkia.

Section WithDefaults.
Variable TextStyle_new : TextStyle.t.

Lemma paint_members_outcome {P} (has : bool) (v : skt.SkPaintOrID)
    (sk0 : option SkPaint) (dl0 : option DlPaint.t) (s : t P) :
  match fst (paint_members has v sk0 dl0 s) with
  | Ok r =>
      r = Behaviour.expected_members (dl_paints_ s) has v sk0 dl0
      /\ Spec.paint_in_bounds (dl_paints_ s) has v = true
  | Fail e =>
      e = out_of_range /\ Spec.paint_in_bounds (dl_paints_ s) has v = false
  end.
Proof.
  rewrite ConverterFacts.paint_members_run. cbn [fst].
  unfold Behaviour.expected_members, Spec.paint_in_bounds,
    Spec.index_in_bounds.
  destruct has, v as [p | id]; cbn; try (split; reflexivity).
  pose proof (vec_at_outcome (dl_paints_ s) (to_size_t id)
                (to_size_t_nonneg id)) as Hat.
  destruct (vec_at (dl_paints_ s) (to_size_t id)) as [dl | e].
  - destruct Hat as [-> ->]. split; reflexivity.
  - exact Hat.
Qed.

(** When and how the conversion fails, and what it gives when it does
    not. *)
Lemma converted_outcome (paints : list DlPaint.t) (skia : skt.TextStyle.t) :
  match Spec.converted TextStyle_new paints skia with
  | Ok style =>
      Spec.style_in_bounds paints skia = true
      /\ (TextStyle.background style, TextStyle.background_dl style)
         = Behaviour.expected_members paints
             (skt.TextStyle.hasBackground skia)
             (skt.TextStyle.getBackgroundPaintOrID skia)
             (TextStyle.background TextStyle_new)
             (TextStyle.background_dl TextStyle_new)
      /\ (TextStyle.foreground style, TextStyle.foreground_dl style)
         = Behaviour.expected_members paints
             (skt.TextStyle.hasForeground skia)
             (skt.TextStyle.getForegroundPaintOrID skia)
             (TextStyle.foreground TextStyle_new)
             (TextStyle.foreground_dl TextStyle_new)
      /\ TextStyle.font_families style
         = TextStyle.font_families TextStyle_new
           ++ map c_str (skt.TextStyle.getFontFamilies skia)
      /\ TextStyle.locale style = c_str (skt.TextStyle.getLocale skia)
      /\ TextStyle.text_shadows style
         = map convert_shadow (skt.TextStyle.getShadows skia)
  | Fail e => e = out_of_range /\ Spec.style_in_bounds paints skia = false
  end.
Proof.
  unfold Spec.converted, SkiaToTxt, bind, Spec.style_in_bounds.
  pose proof (paint_members_outcome (skt.TextStyle.hasBackground skia)
                (skt.TextStyle.getBackgroundPaintOrID skia)
                (TextStyle.background TextStyle_new)
                (TextStyle.background_dl TextStyle_new)
                (new tt paints)) as Hbg.
  pose proof (ConverterFacts.paint_members_run
                (skt.TextStyle.hasBackground skia)
                (skt.TextStyle.getBackgroundPaintOrID skia)
                (TextStyle.background TextStyle_new)
                (TextStyle.background_dl TextStyle_new)
                (new tt paints)) as Hbg_run.
  destruct (paint_members (skt.TextStyle.hasBackground skia) _ _ _
              (new tt paints)) as [[bg | e] sb];
    cbn [fst dl_paints_ new] in Hbg;
    injection Hbg_run as _ ->.
  2:{ cbn. destruct Hbg as [-> ->]. split; reflexivity. }
  destruct Hbg as [-> ->].
  pose proof (paint_members_outcome (skt.TextStyle.hasForeground skia)
                (skt.TextStyle.getForegroundPaintOrID skia)
                (TextStyle.foreground TextStyle_new)
                (TextStyle.foreground_dl TextStyle_new)
                (new tt paints)) as Hfg.
  pose proof (ConverterFacts.paint_members_run
                (skt.TextStyle.hasForeground skia)
                (skt.TextStyle.getForegroundPaintOrID skia)
                (TextStyle.foreground TextStyle_new)
                (TextStyle.foreground_dl TextStyle_new)
                (new tt paints)) as Hfg_run.
  destruct (paint_members (skt.TextStyle.hasForeground skia) _ _ _
              (new tt paints)) as [[fg | e] sf];
    cbn [fst dl_paints_ new] in Hfg;
    injection Hfg_run as _ ->.
  2:{ cbn. destruct Hfg as [-> ->]. split; reflexivity. }
  destruct Hfg as [-> ->]. cbn.
  split; [reflexivity |].
  split; [symmetry; apply surjective_pairing |].
  split; [symmetry; apply surjective_pairing |].
  repeat split.
Qed.

Lemma convert_all_outcome (paints : list DlPaint.t)
    (styles : list skt.TextStyle.t) :
  match Spec.convert_all TextStyle_new paints styles with
  | Ok l => forallb (Spec.style_in_bounds paints) styles = true
  | Fail e =>
      e = out_of_range
      /\ forallb (Spec.style_in_bounds paints) styles = false
  end.
Proof.
  induction styles as [| skia rest IH]; cbn; [reflexivity |].
  pose proof (converted_outcome paints skia) as Hhead.
  destruct (Spec.converted TextStyle_new paints skia) as [style | e].
  - destruct Hhead as [-> _]. cbn.
    destruct (Spec.convert_all TextStyle_new paints rest); exact IH.
  - destruct Hhead as [-> ->]. split; reflexivity.
Qed.

End WithDefaults.
End ConverterMore.

(** X8: [SkiaToTxt] returns exactly when every paint index the style
    carries is inside the palette; otherwise it runs outside the palette,
    and that is its only failure. *)
Theorem SkiaToTxt_fails_iff_out_of_bounds {P : Type}
    (TextStyle_new : TextStyle.t) (skia : skt.TextStyle.t)
    (s : ParagraphSkia.t P) :
  match fst (ParagraphSkia.SkiaToTxt TextStyle_new skia s) with
  | Ok _ => Spec.style_in_bounds (ParagraphSkia.dl_paints_ s) skia = true
  | Fail e =>
      e = out_of_range
      /\ Spec.style_in_bounds (ParagraphSkia.dl_paints_ s) skia = false
  end.
Proof.
  rewrite ConverterFacts.SkiaToTxt_converted. cbn [fst].
  pose proof (ConverterMore.converted_outcome TextStyle_new
                (ParagraphSkia.dl_paints_ s) skia) as Hout.
  destruct (Spec.converted TextStyle_new (ParagraphSkia.dl_paints_ s) skia).
  - exact (proj1 Hout).
  - exact Hout.
Qed.

(** X9: in a converted style, a background held as an immediate paint
    fills [background] and leaves [background_dl] as the default style has
    it; one held as a palette index fills [background_dl] with the
    palette's paint at the index and leaves [background]; a style without
    background leaves both.  The foreground goes the same way. *)
Theorem SkiaToTxt_paint_members {P : Type} (TextStyle_new : TextStyle.t)
    (skia : skt.TextStyle.t) (s s' : ParagraphSkia.t P)
    (style : TextStyle.t) :
  ParagraphSkia.SkiaToTxt TextStyle_new skia s = (Ok style, s') ->
  (TextStyle.background style, TextStyle.background_dl style)
  = Behaviour.expected_members (ParagraphSkia.dl_paints_ s)
      (skt.TextStyle.hasBackground skia)
      (skt.TextStyle.getBackgroundPaintOrID skia)
      (TextStyle.background TextStyle_new)
      (TextStyle.background_dl TextStyle_new)
  /\ (TextStyle.foreground style, TextStyle.foreground_dl style)
     = Behaviour.expected_members (ParagraphSkia.dl_paints_ s)
         (skt.TextStyle.hasForeground skia)
         (skt.TextStyle.getForegroundPaintOrID skia)
         (TextStyle.foreground TextStyle_new)
         (TextStyle.foreground_dl TextStyle_new).
Proof.
  rewrite ConverterFacts.SkiaToTxt_converted. intros Hrun.
  injection Hrun as Hconv _.
  pose proof (ConverterMore.converted_outcome TextStyle_new
                (ParagraphSkia.dl_paints_ s) skia) as Hout.
  rewrite Hconv in Hout. destruct Hout as [_ [Hbg [Hfg _]]].
  split; assumption.
Qed.

Lemma SkiaToTxt_paint_members_witness :
  exists style,
    fst (ParagraphSkia.SkiaToTxt Sample.text_style_new (Sample.style 1)
           Sample.wrapper)
    = Ok style
    /\ TextStyle.background style = None
    /\ TextStyle.background_dl style = Some Sample.red
    /\ TextStyle.foreground style = Some (SkPaint_handle 7)
    /\ TextStyle.foreground_dl style = None.
Proof.
  destruct (ParagraphSkia.SkiaToTxt Sample.text_style_new (Sample.style 1)
              Sample.wrapper) as [[style | e] s'] eqn:Hrun;
    [| vm_compute in Hrun; discriminate].
  destruct (SkiaToTxt_paint_members Sample.text_style_new (Sample.style 1)
              Sample.wrapper s' style Hrun) as [Hbg Hfg].
  exists style. split; [reflexivity |].
  pose proof (f_equal fst Hbg) as Hbg1. pose proof (f_equal snd Hbg) as Hbg2.
  pose proof (f_equal fst Hfg) as Hfg1. pose proof (f_equal snd Hfg) as Hfg2.
  cbn [fst snd] in Hbg1, Hbg2, Hfg1, Hfg2.
  rewrite Hbg1, Hbg2, Hfg1, Hfg2.
  repeat split; vm_compute; reflexivity.
Defined.

(** X10: the font families of a converted style are those of the default
    style followed by the input's, so the default's are kept; its shadows
    are the input's alone, one for one and in order, with colour, offset
    and blur unchanged. *)
Theorem SkiaToTxt_families_and_shadows {P : Type}
    (TextStyle_new : TextStyle.t) (skia : skt.TextStyle.t)
    (s s' : ParagraphSkia.t P) (style : TextStyle.t) :
  ParagraphSkia.SkiaToTxt TextStyle_new skia s = (Ok style, s') ->
  TextStyle.font_families style
  = TextStyle.font_families TextStyle_new
    ++ map c_str (skt.TextStyle.getFontFamilies skia)
  /\ List.length (TextStyle.font_families style)
     = (List.length (TextStyle.font_families TextStyle_new)
        + List.length (skt.TextStyle.getFontFamilies skia))%nat
  /\ Forall2
       (fun skia_shadow shadow =>
          TextShadow.color shadow = skt.fColor skia_shadow
          /\ TextShadow.offset shadow = skt.fOffset skia_shadow
          /\ TextShadow.blur_sigma shadow = skt.fBlurSigma skia_shadow)
       (skt.TextStyle.getShadows skia) (TextStyle.text_shadows style).
Proof.
  rewrite ConverterFacts.SkiaToTxt_converted. intros Hrun.
  injection Hrun as Hconv _.
  pose proof (ConverterMore.converted_outcome TextStyle_new
                (ParagraphSkia.dl_paints_ s) skia) as Hout.
  rewrite Hconv in Hout.
  destruct Hout as [_ [_ [_ [Hfamilies [_ Hshadows]]]]].
  split; [exact Hfamilies |].
  split; [rewrite Hfamilies, length_app, length_map; reflexivity |].
  rewrite Hshadows. clear.
  induction (skt.TextStyle.getShadows skia) as [| sh rest IH]; cbn;
    constructor; [repeat split | exact IH].
Qed.

Lemma SkiaToTxt_families_and_shadows_witness :
  exists style,
    fst (ParagraphSkia.SkiaToTxt Sample.text_style_new (Sample.style 1)
           Sample.wrapper)
    = Ok style
    /\ TextStyle.font_families style
       = ["sans-serif"%string; "Roboto"%string].
Proof.
  destruct (ParagraphSkia.SkiaToTxt Sample.text_style_new (Sample.style 1)
              Sample.wrapper) as [[style | e] s'] eqn:Hrun;
    [| vm_compute in Hrun; discriminate].
  destruct (SkiaToTxt_families_and_shadows Sample.text_style_new
              (Sample.style 1) Sample.wrapper s' style Hrun)
    as [Hfamilies _].
  exists style. split; [reflexivity |]. rewrite Hfamilies. reflexivity.
Defined.

(** X11: the locale of a converted style has no NUL character: it is the
    input's locale when that has none, and otherwise what stands before
    the first NUL. *)
Theorem SkiaToTxt_locale_cut_at_nul {P : Type}
    (TextStyle_new : TextStyle.t) (skia : skt.TextStyle.t)
    (s s' : ParagraphSkia.t P) (style : TextStyle.t) :
  ParagraphSkia.SkiaToTxt TextStyle_new skia s = (Ok style, s') ->
  Behaviour.no_nul (TextStyle.locale style) = true
  /\ (Behaviour.no_nul (skt.TextStyle.getLocale skia) = true ->
      TextStyle.locale style = skt.TextStyle.getLocale skia)
  /\ (forall a b : string,
        Behaviour.no_nul a = true ->
        skt.TextStyle.getLocale skia = (a ++ String Ascii.zero b)%string ->
        TextStyle.locale style = a).
Proof.
  rewrite ConverterFacts.SkiaToTxt_converted. intros Hrun.
  injection Hrun as Hconv _.
  pose proof (ConverterMore.converted_outcome TextStyle_new
                (ParagraphSkia.dl_paints_ s) skia) as Hout.
  rewrite Hconv in Hout.
  destruct Hout as [_ [_ [_ [_ [Hlocale _]]]]].
  rewrite Hlocale. split; [apply c_str_no_nul |].
  split; [apply c_str_of_no_nul |].
  intros a b Ha ->. apply c_str_cut. exact Ha.
Qed.

Lemma SkiaToTxt_locale_cut_at_nul_witness :
  exists style,
    fst (ParagraphSkia.SkiaToTxt Sample.text_style_new (Sample.style 1)
           Sample.wrapper)
    = Ok style
    /\ TextStyle.locale style = "en"%string.
Proof.
  destruct (ParagraphSkia.SkiaToTxt Sample.text_style_new (Sample.style 1)
              Sample.wrapper) as [[style | e] s'] eqn:Hrun;
    [| vm_compute in Hrun; discriminate].
  destruct (SkiaToTxt_locale_cut_at_nul Sample.text_style_new
              (Sample.style 1) Sample.wrapper s' style Hrun)
    as [_ [Hsame _]].
  exists style. split; [reflexivity |]. apply Hsame. reflexivity.
Defined.

(* ================================================================== *)
(** ** The cache, line by line and run by run *)

Lemma map_emplace_last {V} (k : Z) (v : V) (m : list (Z * V)) :
  Forall (fun key => key < k) (map fst m) ->
  map_emplace k v m = m ++ [(k, v)].
Proof.
  induction m as [| [k' v'] rest IH]; cbn; intros Hall; [reflexivity |].
  inversion Hall as [| key keys Hlt Hrest]; subst. cbn in Hlt.
  destruct (Z.ltb_spec k k'); [lia |].
  destruct (Z.eqb_spec k k'); [lia |].
  rewrite (IH Hrest). reflexivity.
Qed.

Lemma sorted_before (a b : list Z) (k : Z) :
  StronglySorted Z.lt (a ++ k :: b) -> Forall (fun key => key < k) a.
Proof.
  induction a as [| x rest IH]; cbn; intros Hsorted; [constructor |].
  inversion Hsorted as [| y l Hrest Hall]; subst.
  constructor; [| apply IH; exact Hrest].
  rewrite Forall_app in Hall. destruct Hall as [_ Hk].
  inversion Hk; assumption.
Qed.

(** With increasing keys every [emplace] adds its run at the end. *)
Lemma expected_runs_sorted (runs : list (Z * skt.StyleMetrics)) :
  forall (base : nat) (txtm : LineMetrics.t),
    StronglySorted Z.lt
      (map fst (LineMetrics.run_metrics txtm) ++ map fst runs) ->
    LineMetrics.run_metrics (Spec.expected_runs base runs txtm)
    = LineMetrics.run_metrics txtm ++ Behaviour.indexed_runs base runs.
Proof.
  induction runs as [| sk_iter rest IH]; intros base txtm Hsorted;
    cbn [Spec.expected_runs Behaviour.indexed_runs map] in *.
  - rewrite app_nil_r. reflexivity.
  - rewrite IH; cbn [LineMetrics.emplace_run LineMetrics.run_metrics].
    + rewrite map_emplace_last by (eapply sorted_before; exact Hsorted).
      rewrite <- app_assoc. reflexivity.
    + rewrite map_emplace_last by (eapply sorted_before; exact Hsorted).
      rewrite map_app, <- app_assoc. exact Hsorted.
Qed.



Lemma reserve_count_from (metrics : list skt.LineMetrics) :
  forall a : Z,
    0 <= a ->
    a + Z.of_nat (List.length (Spec.all_styles metrics)) <= int_max ->
    fold_left
      (fun a b => int_wrap (to_size_t a + vec_size (skt.fLineMetrics b)))
      metrics a
    = a + Z.of_nat (List.length (Spec.all_styles metrics)).
Proof.
  induction metrics as [| skm rest IH]; intros a Ha Hmax;
    cbn [fold_left Spec.all_styles flat_map List.length] in *; [lia |].
  change (flat_map Spec.line_styles rest) with (Spec.all_styles rest) in *.
  assert (Hline : List.length (Spec.line_styles skm)
                  = List.length (skt.fLineMetrics skm))
    by (unfold Spec.line_styles; apply length_map).
  rewrite length_app, Hline in Hmax |- *.
  assert (Hstep : int_wrap (to_size_t a + vec_size (skt.fLineMetrics skm))
                  = a + Z.of_nat (List.length (skt.fLineMetrics skm))).
  { unfold to_size_t, size_max, vec_size.
    unfold int_max in Hmax.
    rewrite Z.mod_small by lia.
    apply int_wrap_id. unfold int_min, int_max. lia. }
  rewrite Hstep. rewrite IH; lia.
Qed.

Module CacheMore.
Import ParagraphSkia.

Section WithParagraph.
Context {P : Type} {paragraph_class : skt.Paragraph P}.
Variable TextStyle_new : TextStyle.t.

Lemma convert_all_each (paints : list DlPaint.t)
    (styles : list skt.TextStyle.t) :
  forall l,
    Spec.convert_all TextStyle_new paints styles = Ok l ->
    Forall2 (fun skia style => Spec.converted TextStyle_new paints skia
                               = Ok style)
      styles l.
Proof.
  induction styles as [| skia rest IH]; cbn; intros l Hl.
  - injection Hl as <-. constructor.
  - destruct (Spec.converted TextStyle_new paints skia) as [style |] eqn:Hc;
      [| discriminate].
    destruct (Spec.convert_all TextStyle_new paints rest) as [l' |];
      [| discriminate].
    injection Hl as <-. constructor; [exact Hc | apply IH; reflexivity].
Qed.

Lemma indexed_runs_refer (paints : list DlPaint.t)
    (runs : list (Z * skt.StyleMetrics)) :
  forall (base : nat) (before line_styles after : list TextStyle.t),
    List.length before = base ->
    Forall2 (fun skia style => Spec.converted TextStyle_new paints skia
                               = Ok style)
      (map (fun sk_iter => skt.text_style (snd sk_iter)) runs) line_styles ->
    Forall2
      (Behaviour.run_refers TextStyle_new paints
         (before ++ line_styles ++ after))
      runs (Behaviour.indexed_runs base runs).
Proof.
  induction runs as [| sk_iter rest IH];
    intros base before line_styles after Hlen Hconv;
    cbn [Behaviour.indexed_runs map] in *; [constructor |].
  inversion Hconv as [| skia style skias styles Hhead Htail]; subst.
  constructor.
  - unfold Behaviour.run_refers. cbn.
    split; [reflexivity |]. split; [reflexivity |].
    exists style. split; [| exact Hhead].
    rewrite nth_error_app2 by lia. rewrite Nat.sub_diag. reflexivity.
  - specialize (IH (S (List.length before)) (before ++ [style]) styles after).
    rewrite <- app_assoc in IH. cbn [app] in IH.
    apply IH; [rewrite length_app; cbn; lia | exact Htail].
Qed.

Lemma expected_lines_refer (paints : list DlPaint.t)
    (metrics : list skt.LineMetrics) :
  forall (base : nat) (before styles : list TextStyle.t),
    List.length before = base ->
    Spec.convert_all TextStyle_new paints (Spec.all_styles metrics)
    = Ok styles ->
    Forall (fun skm => Behaviour.keys_increasing (skt.fLineMetrics skm))
      metrics ->
    Forall2
      (fun skm txtm =>
         Forall2
           (Behaviour.run_refers TextStyle_new paints (before ++ styles))
           (skt.fLineMetrics skm) (LineMetrics.run_metrics txtm))
      metrics (Spec.expected_lines base metrics).
Proof.
  induction metrics as [| skm rest IH];
    intros base before styles Hlen Hconv Hkeys;
    cbn [Spec.expected_lines Spec.all_styles flat_map] in *; [constructor |].
  inversion Hkeys as [| x l Hhead Htail]; subst.
  rewrite ConverterFacts.convert_all_app in Hconv.
  destruct (Spec.convert_all TextStyle_new paints (Spec.line_styles skm))
    as [line_styles |] eqn:Hline; [| discriminate].
  fold (Spec.all_styles rest) in Hconv.
  destruct (Spec.convert_all TextStyle_new paints (Spec.all_styles rest))
    as [rest_styles |] eqn:Hrest; [| discriminate].
  injection Hconv as <-.
  pose proof (ConverterFacts.convert_all_length _ _ _ _ Hline) as Hcount.
  unfold Spec.line_styles in Hcount. rewrite length_map in Hcount.
  constructor.
  - rewrite expected_runs_sorted by exact Hhead. cbn [app].
    apply indexed_runs_refer; [reflexivity |].
    apply convert_all_each. exact Hline.
  - rewrite app_assoc.
    apply IH; [rewrite length_app; lia | reflexivity | exact Htail].
Qed.

(** A call on an empty cache that returns: what it returns and what it
    leaves. *)
Lemma GetLineMetrics_success (s s' : t P) (lines : list LineMetrics.t) :
  line_metrics_ s = None ->
  GetLineMetrics TextStyle_new s = (Ok lines, s') ->
  exists styles,
    Spec.convert_all TextStyle_new (dl_paints_ s)
      (Spec.all_styles (fst (skt.getLineMetrics (paragraph_ s))))
    = Ok styles
    /\ lines
       = Spec.expected_lines (List.length (line_metrics_styles_ s))
           (fst (skt.getLineMetrics (paragraph_ s)))
    /\ line_metrics_styles_ s' = line_metrics_styles_ s ++ styles.
Proof.
  intros Hnone Hrun.
  pose proof (CacheFacts.GetLineMetrics_fresh TextStyle_new s Hnone) as Hfresh.
  cbv zeta in Hfresh.
  destruct (Spec.convert_all TextStyle_new (dl_paints_ s)
              (Spec.all_styles (fst (skt.getLineMetrics (paragraph_ s)))))
    as [styles | e].
  - rewrite Hfresh in Hrun. injection Hrun as <- <-.
    exists styles. repeat split.
  - rewrite Hrun in Hfresh. discriminate.
Qed.

(** The loops never write the palette, whatever their outcome. *)
Lemma convert_run_palette (sk_iter : Z * skt.StyleMetrics) (s : t P) :
  dl_paints_ (snd (convert_run TextStyle_new sk_iter s)) = dl_paints_ s.
Proof.
  unfold convert_run, bind. rewrite ConverterFacts.SkiaToTxt_converted.
  destruct (Spec.converted TextStyle_new (dl_paints_ s)
              (skt.text_style (snd sk_iter))); [| reflexivity].
  unfold push_back_style, emplace_run_metrics, bind, gets, modify, raise.
  cbn. destruct (line_metrics_ s) as [lines |]; [| reflexivity].
  destruct (rev lines); reflexivity.
Qed.

Lemma for_each_palette {A} (body : A -> Exec (t P) unit) (l : list A) :
  (forall x s, dl_paints_ (snd (body x s)) = dl_paints_ s) ->
  forall s, dl_paints_ (snd (for_each body l s)) = dl_paints_ s.
Proof.
  intros Hbody. induction l as [| x rest IH]; intros s; [reflexivity |].
  cbn [for_each]. unfold bind. pose proof (Hbody x s) as Hx.
  destruct (body x s) as [[u | e] s1]; cbn [snd] in Hx.
  - rewrite IH. exact Hx.
  - exact Hx.
Qed.

Lemma convert_line_palette (skm : skt.LineMetrics) (s : t P) :
  dl_paints_ (snd (convert_line TextStyle_new skm s)) = dl_paints_ s.
Proof.
  unfold convert_line, emplace_back_line, bind, gets, modify, raise.
  destruct (line_metrics_ s) as [lines |]; [| reflexivity].
  rewrite (for_each_palette _ _ convert_run_palette). reflexivity.
Qed.

Lemma GetLineMetrics_palette (s : t P) :
  dl_paints_ (snd (GetLineMetrics TextStyle_new s)) = dl_paints_ s.
Proof.
  unfold GetLineMetrics, bind, gets, on_paragraph, reserve_styles, modify, ret.
  destruct (line_metrics_ s) as [lines |] eqn:Hcache.
  - rewrite Hcache. reflexivity.
  - destruct (skt.getLineMetrics (paragraph_ s)) as [metrics p'].
    pose proof (for_each_palette _ metrics convert_line_palette
                  (set_line_metrics_ (Some []) (set_paragraph_ p' s)))
      as Hloop.
    destruct (for_each (convert_line TextStyle_new) metrics _)
      as [[u | e] s1]; cbn [snd] in Hloop.
    + destruct (line_metrics_ s1); exact Hloop.
    + exact Hloop.
Qed.

End WithParagraph.
End CacheMore.



(** X13: when the keys of every line's runs increase, as the iteration of
    a [std::map] gives them, a call on an empty cache that returns gives
    every line the runs of the paragraph's line, key by key, and the
    pointer of each run leads, in the store the call leaves, to the
    conversion of that very run's style. *)
Theorem GetLineMetrics_runs_refer_to_own_style {P : Type}
    {paragraph_class : skt.Paragraph P} (TextStyle_new : TextStyle.t)
    (s s' : ParagraphSkia.t P) (lines : list LineMetrics.t) :
  ParagraphSkia.line_metrics_ s = None ->
  Forall (fun skm => Behaviour.keys_increasing (skt.fLineMetrics skm))
    (fst (skt.getLineMetrics (ParagraphSkia.paragraph_ s))) ->
  ParagraphSkia.GetLineMetrics TextStyle_new s = (Ok lines, s') ->
  Forall2
    (fun skm txtm =>
       Forall2
         (Behaviour.run_refers TextStyle_new (ParagraphSkia.dl_paints_ s)
            (ParagraphSkia.line_metrics_styles_ s'))
         (skt.fLineMetrics skm) (LineMetrics.run_metrics txtm))
    (fst (skt.getLineMetrics (ParagraphSkia.paragraph_ s))) lines.
Proof.
  intros Hnone Hkeys Hrun.
  destruct (CacheMore.GetLineMetrics_success TextStyle_new s s' lines
              Hnone Hrun) as [styles [Hstyles [-> ->]]].
  apply CacheMore.expected_lines_refer; [reflexivity | exact Hstyles |].
  exact Hkeys.
Qed.

Lemma GetLineMetrics_runs_refer_to_own_style_witness :
  exists lines s',
    ParagraphSkia.GetLineMetrics Sample.text_style_new Sample.wrapper
    = (Ok lines, s')
    /\ Forall2
         (fun skm txtm =>
            Forall2
              (Behaviour.run_refers Sample.text_style_new Sample.palette
                 (ParagraphSkia.line_metrics_styles_ s'))
              (skt.fLineMetrics skm) (LineMetrics.run_metrics txtm))
         (CountingParagraph.lines Sample.paragraph) lines.
Proof.
  destruct (ParagraphSkia.GetLineMetrics Sample.text_style_new
              Sample.wrapper) as [[lines | e] s'] eqn:Hrun;
    [| vm_compute in Hrun; discriminate].
  exists lines, s'. split; [reflexivity |].
  assert (Hkeys : Forall
                    (fun skm =>
                       Behaviour.keys_increasing (skt.fLineMetrics skm))
                    (fst (skt.getLineMetrics
                            (ParagraphSkia.paragraph_ Sample.wrapper)))).
  { unfold Behaviour.keys_increasing. cbn. repeat constructor. }
  exact (GetLineMetrics_runs_refer_to_own_style Sample.text_style_new
           Sample.wrapper s' lines eq_refl Hkeys Hrun).
Defined.

(** X14: fewer than 2^31 runs are counted exactly by the [int]
    accumulator, and a call on an empty cache and store that returns
    leaves in the store exactly the number of styles it reserved, one per
    run: no [push_back] outgrows the reservation. *)
Theorem GetLineMetrics_store_is_reserved {P : Type}
    {paragraph_class : skt.Paragraph P} (TextStyle_new : TextStyle.t)
    (s s' : ParagraphSkia.t P) (lines : list LineMetrics.t) :
  let metrics := fst (skt.getLineMetrics (ParagraphSkia.paragraph_ s)) in
  ParagraphSkia.line_metrics_ s = None ->
  ParagraphSkia.line_metrics_styles_ s = [] ->
  Z.of_nat (List.length (Spec.all_styles metrics)) <= int_max ->
  ParagraphSkia.GetLineMetrics TextStyle_new s = (Ok lines, s') ->
  ParagraphSkia.reserve_count metrics
  = Z.of_nat (List.length (Spec.all_styles metrics))
  /\ vec_size (ParagraphSkia.line_metrics_styles_ s')
     = to_size_t (ParagraphSkia.reserve_count metrics).
Proof.
  cbv zeta. intros Hnone Hempty Hmax Hrun.
  destruct (CacheMore.GetLineMetrics_success TextStyle_new s s' lines
              Hnone Hrun) as [styles [Hstyles [_ ->]]].
  assert (Hcount : ParagraphSkia.reserve_count
                     (fst (skt.getLineMetrics (ParagraphSkia.paragraph_ s)))
                   = Z.of_nat
                       (List.length
                          (Spec.all_styles
                             (fst (skt.getLineMetrics
                                     (ParagraphSkia.paragraph_ s)))))).
  { unfold ParagraphSkia.reserve_count.
    rewrite reserve_count_from; lia. }
  split; [exact Hcount |].
  rewrite Hcount, Hempty. cbn [app]. unfold vec_size.
  rewrite (ConverterFacts.convert_all_length _ _ _ _ Hstyles).
  unfold to_size_t, size_max. unfold int_max in Hmax.
  rewrite Z.mod_small; lia.
Qed.

Lemma GetLineMetrics_store_is_reserved_witness :
  exists s',
    snd (ParagraphSkia.GetLineMetrics Sample.text_style_new Sample.wrapper)
    = s'
    /\ vec_size (ParagraphSkia.line_metrics_styles_ s') = 3.
Proof.
  destruct (ParagraphSkia.GetLineMetrics Sample.text_style_new
              Sample.wrapper) as [[lines | e] s'] eqn:Hrun;
    [| vm_compute in Hrun; discriminate].
  assert (Hmax : Z.of_nat
                   (List.length
                      (Spec.all_styles
                         (fst (skt.getLineMetrics
                                 (ParagraphSkia.paragraph_ Sample.wrapper)))))
                 <= int_max) by (vm_compute; discriminate).
  destruct (GetLineMetrics_store_is_reserved Sample.text_style_new
              Sample.wrapper s' lines eq_refl eq_refl Hmax Hrun)
    as [_ Hsize].
  exists s'. split; [reflexivity |]. rewrite Hsize. vm_compute. reflexivity.
Defined.

(** X15: [GetLineMetrics] fails exactly when the cache is empty and a
    style of the paragraph's metrics carries a paint index outside the
    palette, and then by running outside the palette; on a filled cache it
    always returns. *)
Theorem GetLineMetrics_fails_iff_out_of_bounds {P : Type}
    {paragraph_class : skt.Paragraph P} (TextStyle_new : TextStyle.t)
    (s : ParagraphSkia.t P) :
  let in_bounds :=
    Spec.metrics_in_bounds (ParagraphSkia.dl_paints_ s)
      (fst (skt.getLineMetrics (ParagraphSkia.paragraph_ s))) in
  match fst (ParagraphSkia.GetLineMetrics TextStyle_new s) with
  | Ok _ => ParagraphSkia.line_metrics_ s <> None \/ in_bounds = true
  | Fail e =>
      e = out_of_range
      /\ ParagraphSkia.line_metrics_ s = None
      /\ in_bounds = false
  end.
Proof.
  cbv zeta. destruct (ParagraphSkia.line_metrics_ s) as [cached |] eqn:Hcache.
  - rewrite (CacheFacts.GetLineMetrics_cached TextStyle_new s cached Hcache).
    cbn. left. discriminate.
  - pose proof (CacheFacts.GetLineMetrics_fresh TextStyle_new s Hcache)
      as Hfresh.
    cbv zeta in Hfresh.
    pose proof (ConverterMore.convert_all_outcome TextStyle_new
                  (ParagraphSkia.dl_paints_ s)
                  (Spec.all_styles
                     (fst (skt.getLineMetrics (ParagraphSkia.paragraph_ s)))))
      as Hout.
    unfold Spec.metrics_in_bounds.
    destruct (Spec.convert_all TextStyle_new (ParagraphSkia.dl_paints_ s)
                (Spec.all_styles
                   (fst (skt.getLineMetrics (ParagraphSkia.paragraph_ s)))))
      as [styles | e].
    + rewrite Hfresh. cbn. right. exact Hout.
    + rewrite Hfresh. destruct Hout as [-> Hout].
      split; [reflexivity |]. split; [reflexivity | exact Hout].
Qed.

(* ================================================================== *)
(** ** The wrapper, member function by member function *)

(** The state a member function leaves, whatever its outcome: the palette
    is the one before, and so are the cache and the store unless the
    function is [Layout] or [GetLineMetrics]. *)
Lemma call_frame (mode : BuildMode) {P : Type}
    {paragraph_class : skt.Paragraph P} (TextStyle_new : TextStyle.t)
    (m : ParagraphSkia.method) (s : ParagraphSkia.t P) :
  let s' := snd (ParagraphSkia.call TextStyle_new m s) in
  ParagraphSkia.dl_paints_ s' = ParagraphSkia.dl_paints_ s
  /\ (Behaviour.touches_cache m = false ->
      ParagraphSkia.line_metrics_ s' = ParagraphSkia.line_metrics_ s
      /\ ParagraphSkia.line_metrics_styles_ s'
         = ParagraphSkia.line_metrics_styles_ s).
Proof.
  cbv zeta. destruct m; cbn [Behaviour.touches_cache].
  1-3, 5-9: split; [reflexivity | intros _; split; reflexivity].
  - (* GetLineMetrics *)
    split; [| discriminate].
    cbn [ParagraphSkia.call]. unfold bind at 1.
    pose proof (CacheMore.GetLineMetrics_palette TextStyle_new s) as Hpalette.
    destruct (ParagraphSkia.GetLineMetrics TextStyle_new s) as [[l | e] s1];
      exact Hpalette.
  - (* Layout *)
    split; [reflexivity | discriminate].
  - (* Paint *)
    cbn [ParagraphSkia.call]. rewrite Paint_run.
    destruct (fst (for_each DisplayListParagraphPainter.dispatch _ _));
      cbn; (split; [reflexivity | intros _; split; reflexivity]).
  - cbn [ParagraphSkia.call].
    unfold ParagraphSkia.GetRectsForRange, bind, ParagraphSkia.on_paragraph,
      ret.
    destruct (skt.getRectsForRange _ _ _ _ _) as [boxes p].
    split; [reflexivity | intros _; split; reflexivity].
  - cbn [ParagraphSkia.call].
    unfold ParagraphSkia.GetRectsForPlaceholders, bind,
      ParagraphSkia.on_paragraph, ret.
    destruct (skt.getRectsForPlaceholders _) as [boxes p].
    split; [reflexivity | intros _; split; reflexivity].
  - cbn [ParagraphSkia.call].
    unfold ParagraphSkia.GetGlyphPositionAtCoordinate, bind,
      ParagraphSkia.on_paragraph, ret.
    destruct (skt.getGlyphPositionAtCoordinate _ _ _) as [pos p].
    split; [reflexivity | intros _; split; reflexivity].
  - cbn [ParagraphSkia.call].
    unfold ParagraphSkia.GetWordBoundary, bind, ParagraphSkia.on_paragraph,
      ret.
    destruct (skt.getWordBoundary _ _) as [range p].
    split; [reflexivity | intros _; split; reflexivity].
Qed.

(** X16: no member function writes the palette: after any call, returned
    or failed, [dl_paints_] is what the constructor was given. *)
Theorem palette_never_changes (mode : BuildMode) {P : Type}
    {paragraph_class : skt.Paragraph P} (TextStyle_new : TextStyle.t)
    (calls : list ParagraphSkia.method) (paragraph : P)
    (dl_paints : list DlPaint.t) :
  ParagraphSkia.dl_paints_
    (fold_left
       (fun s m => snd (ParagraphSkia.call TextStyle_new m s))
       calls (ParagraphSkia.new paragraph dl_paints))
  = dl_paints.
Proof.
  assert (Hany : forall s : ParagraphSkia.t P,
             ParagraphSkia.dl_paints_
               (fold_left
                  (fun s m => snd (ParagraphSkia.call TextStyle_new m s))
                  calls s)
             = ParagraphSkia.dl_paints_ s).
  { induction calls as [| m rest IH]; intros s; [reflexivity |].
    cbn [fold_left]. rewrite IH.
    apply (call_frame mode TextStyle_new m s). }
  rewrite Hany. reflexivity.
Qed.

(** X17: apart from [Layout] and [GetLineMetrics], a member function
    leaves the cache and the store as they were, also when it fails:
    a [Paint] that stops at a bad paint index has not touched them. *)
Theorem only_Layout_and_GetLineMetrics_write_cache (mode : BuildMode)
    {P : Type} {paragraph_class : skt.Paragraph P}
    (TextStyle_new : TextStyle.t) (m : ParagraphSkia.method)
    (s : ParagraphSkia.t P) :
  Behaviour.touches_cache m = false ->
  ParagraphSkia.line_metrics_ (snd (ParagraphSkia.call TextStyle_new m s))
  = ParagraphSkia.line_metrics_ s
  /\ ParagraphSkia.line_metrics_styles_
       (snd (ParagraphSkia.call TextStyle_new m s))
     = ParagraphSkia.line_metrics_styles_ s.
Proof.
  intros Hm. exact (proj2 (call_frame mode TextStyle_new m s) Hm).
Qed.

Lemma only_Layout_and_GetLineMetrics_write_cache_witness :
  fst (@ParagraphSkia.call Sample.debug _ _ Sample.text_style_new
         (ParagraphSkia.mPaint [] Sample.one Sample.one)
         MoreSamples.broken_wrapper)
  = Fail dcheck_failed
  /\ ParagraphSkia.line_metrics_
       (snd (@ParagraphSkia.call Sample.debug _ _ Sample.text_style_new
               (ParagraphSkia.mPaint [] Sample.one Sample.one)
               MoreSamples.broken_wrapper))
     = None.
Proof.
  split; [vm_compute; reflexivity |].
  rewrite (proj1 (only_Layout_and_GetLineMetrics_write_cache Sample.debug
                    Sample.text_style_new
                    (ParagraphSkia.mPaint [] Sample.one Sample.one)
                    MoreSamples.broken_wrapper eq_refl)).
  reflexivity.
Defined.

Lemma GetLineMetrics_failure_kind {P : Type}
    {paragraph_class : skt.Paragraph P} (TextStyle_new : TextStyle.t)
    (s : ParagraphSkia.t P) (e : failure) :
  fst (ParagraphSkia.GetLineMetrics TextStyle_new s) = Fail e ->
  e = out_of_range.
Proof.
  intros Hfail.
  destruct (ParagraphSkia.line_metrics_ s) as [cached |] eqn:Hcache.
  - rewrite (CacheFacts.GetLineMetrics_cached TextStyle_new s cached Hcache)
      in Hfail.
    discriminate.
  - pose proof (CacheFacts.GetLineMetrics_fresh TextStyle_new s Hcache)
      as Hfresh.
    cbv zeta in Hfresh.
    pose proof (ConverterMore.convert_all_outcome TextStyle_new
                  (ParagraphSkia.dl_paints_ s)
                  (Spec.all_styles
                     (fst (skt.getLineMetrics (ParagraphSkia.paragraph_ s)))))
      as Hout.
    destruct (Spec.convert_all TextStyle_new (ParagraphSkia.dl_paints_ s)
                (Spec.all_styles
                   (fst (skt.getLineMetrics (ParagraphSkia.paragraph_ s)))))
      as [styles | e'].
    + rewrite Hfresh in Hfail. discriminate.
    + rewrite Hfresh in Hfail. injection Hfail as <-. exact (proj1 Hout).
Qed.

Lemma Paint_failure_kind (mode : BuildMode) {P : Type}
    {paragraph_class : skt.Paragraph P} (x y : double)
    (s : ParagraphSkia.t P) (builder : DisplayListBuilder.t) (e : failure) :
  fst (ParagraphSkia.Paint x y (s, builder)) = Fail e ->
  Behaviour.painter_failure e.
Proof.
  rewrite Paint_run. cbn [fst].
  destruct (PaintFacts.for_each_dispatch mode
              (fst (skt.paint (DoubleToSkScalar x) (DoubleToSkScalar y)
                      (ParagraphSkia.paragraph_ s)))
              {| DisplayListParagraphPainter.builder_ := builder;
                 DisplayListParagraphPainter.dl_paints_ :=
                   ParagraphSkia.dl_paints_ s |})
    as [l [_ [_ [_ Hfail]]]].
  intros He. apply Hfail.
  destruct (fst (for_each DisplayListParagraphPainter.dispatch _ _))
    as [u | e']; [discriminate | congruence].
Qed.

(** X18: of the member functions only [GetLineMetrics] and [Paint] can
    fail: [GetLineMetrics] by running outside the palette, [Paint] by one
    of the painter's three failures; the geometry queries, [Layout] and
    the box, glyph and word queries always return. *)
Theorem failure_sources (mode : BuildMode) {P : Type}
    {paragraph_class : skt.Paragraph P} (TextStyle_new : TextStyle.t)
    (m : ParagraphSkia.method) (s : ParagraphSkia.t P) (e : failure) :
  fst (ParagraphSkia.call TextStyle_new m s) = Fail e ->
  (m = ParagraphSkia.mGetLineMetrics /\ e = out_of_range)
  \/ (Behaviour.is_Paint m = true /\ Behaviour.painter_failure e).
Proof.
  destruct m; cbn [ParagraphSkia.call Behaviour.is_Paint].
  1-3, 5-10: cbn; discriminate.
  - (* GetLineMetrics *)
    intros Hfail. left. split; [reflexivity |].
    unfold bind at 1 in Hfail.
    apply (GetLineMetrics_failure_kind TextStyle_new s).
    destruct (ParagraphSkia.GetLineMetrics TextStyle_new s) as [[l | e'] s1];
      cbn in Hfail |- *; [discriminate | congruence].
  - (* Paint *)
    intros Hfail. right. split; [reflexivity |].
    apply (Paint_failure_kind mode x y s builder).
    destruct (ParagraphSkia.Paint x y (s, builder)) as [[ok | e'] [s1 b1]];
      cbn in Hfail |- *; [discriminate | congruence].
  - unfold ParagraphSkia.GetRectsForRange, bind, ParagraphSkia.on_paragraph,
      ret.
    destruct (skt.getRectsForRange _ _ _ _ _); discriminate.
  - unfold ParagraphSkia.GetRectsForPlaceholders, bind,
      ParagraphSkia.on_paragraph, ret.
    destruct (skt.getRectsForPlaceholders _); discriminate.
  - unfold ParagraphSkia.GetGlyphPositionAtCoordinate, bind,
      ParagraphSkia.on_paragraph, ret.
    destruct (skt.getGlyphPositionAtCoordinate _ _ _); discriminate.
  - unfold ParagraphSkia.GetWordBoundary, bind, ParagraphSkia.on_paragraph,
      ret.
    destruct (skt.getWordBoundary _ _); discriminate.
Qed.

Lemma failure_sources_witness :
  (ParagraphSkia.mGetLineMetrics = ParagraphSkia.mGetLineMetrics
   /\ out_of_range = out_of_range)
  \/ (Behaviour.is_Paint ParagraphSkia.mGetLineMetrics = true
      /\ Behaviour.painter_failure out_of_range).
Proof.
  apply (failure_sources Sample.debug Sample.text_style_new
           ParagraphSkia.mGetLineMetrics MoreSamples.broken_wrapper
           out_of_range).
  vm_compute. reflexivity.
Defined.

(** X19: a width read with [GetMaxWidth] and handed to [Layout] reaches
    the paragraph as the very scalar it holds: the widening to [double]
    and the narrowing back lose nothing; the call returns and leaves the
    cache and the store empty. *)
Theorem Layout_of_GetMaxWidth_is_exact {P : Type}
    {paragraph_class : skt.Paragraph P} (s : ParagraphSkia.t P) :
  Spec.is_binary32 (skt.getMaxWidth (ParagraphSkia.paragraph_ s)) = true ->
  bind ParagraphSkia.GetMaxWidth ParagraphSkia.Layout s
  = (Ok tt,
     ParagraphSkia.new
       (skt.layout (skt.getMaxWidth (ParagraphSkia.paragraph_ s))
          (ParagraphSkia.paragraph_ s))
       (ParagraphSkia.dl_paints_ s)).
Proof.
  intros Hscalar.
  unfold bind, ParagraphSkia.GetMaxWidth, ParagraphSkia.Layout, gets, ret,
    modify.
  cbn. rewrite (narrowing_undoes_widening _ Hscalar). reflexivity.
Qed.

Lemma Layout_of_GetMaxWidth_is_exact_witness :
  CountingParagraph.width
    (ParagraphSkia.paragraph_
       (snd (bind ParagraphSkia.GetMaxWidth ParagraphSkia.Layout
               Sample.wrapper)))
  = Sample.one.
Proof.
  assert (Hscalar : Spec.is_binary32
                      (skt.getMaxWidth
                         (ParagraphSkia.paragraph_ Sample.wrapper))
                    = true) by (vm_compute; reflexivity).
  rewrite (Layout_of_GetMaxWidth_is_exact Sample.wrapper Hscalar).
  reflexivity.
Defined.
